(** * The document workflow of [mirascope/doc_workflow.py]

    A shallow embedding of [DocumentWorkflowAgent]: the three prompt
    builders [create_outline], [validate_outline], [generate_document]
    and the bounded draft / validate / revise loop of [run].

    Modelling conventions.
    - A Python [str] is a [string]; a character stands for the code
      point with the same number (0..255).
    - A Python [int] is a [Z].
    - The language-model call behind the [openai.call] decorator is the
      Generation Port: for the n-th call of a run it answers with a
      value of the requested response model or raises.
    - [print] appends one entry to a list of emitted lines.
    - An exception carries the name of its class and of the classes it
      derives from; [except Exception] catches the instances of
      [Exception] and lets every other exception pass. *)

From Stdlib Require Import String Ascii List ZArith Lia Bool Arith.
From Stdlib Require Import DecimalString.
Import ListNotations.

Set Warnings "-register-all".
Local Open Scope list_scope.
Local Open Scope string_scope.

(** ** Text helpers *)

Module Text.

Definition nl : string := String "010"%char EmptyString.
Definition dquote : ascii := "034"%char.

Fixpoint has_char (c : ascii) (s : string) : bool :=
  match s with
  | EmptyString => false
  | String d s' => Ascii.eqb c d || has_char c s'
  end.

(** [sep.join(xs)] *)
Fixpoint join (sep : string) (xs : list string) : string :=
  match xs with
  | [] => ""
  | [x] => x
  | x :: rest => x ++ sep ++ join sep rest
  end.

(** [hay] has [needle] as a contiguous piece. *)
Definition contains (needle hay : string) : Prop :=
  exists pre post, hay = pre ++ needle ++ post.

(** Python truthiness of a [str]. *)
Definition truthy (s : string) : bool :=
  match s with EmptyString => false | String _ _ => true end.

End Text.

(** ** Python's textual forms: [repr] of [str], [bool], [list], [int] *)

Module Py.

Import Text.

Definition hex_digit (n : nat) : ascii :=
  nth n (list_ascii_of_string "0123456789abcdef") "0"%char.

Definition hex_escape (n : nat) : string :=
  String "\" (String "x"
    (String (hex_digit (n / 16)) (String (hex_digit (n mod 16)) ""))).

(** The quote [repr] puts around a string: a double quote when the text
    has a single quote and no double quote, a single quote otherwise. *)
Definition repr_quote (s : string) : ascii :=
  if has_char "'"%char s && negb (has_char dquote s) then dquote else "'"%char.

(** Code points below 256 that [str.isprintable] rejects: the C0 and C1
    controls, DEL, the no-break space and the soft hyphen. *)
Definition printable (n : nat) : bool :=
  negb ((n <? 32) || ((127 <=? n) && (n <=? 160)) || (n =? 173))%nat.

Definition repr_char (quote c : ascii) : string :=
  let n := nat_of_ascii c in
  if Ascii.eqb c quote || Ascii.eqb c "\"%char then String "\" (String c "")
  else if (n =? 9)%nat then "\t"
  else if (n =? 10)%nat then "\n"
  else if (n =? 13)%nat then "\r"
  else if printable n then String c ""
  else hex_escape n.

Fixpoint repr_body (quote : ascii) (s : string) : string :=
  match s with
  | EmptyString => ""
  | String c s' => repr_char quote c ++ repr_body quote s'
  end.

(** [repr(s)] for a [str]. *)
Definition repr_str (s : string) : string :=
  let q := repr_quote s in
  String q (repr_body q s ++ String q "").

(** [str(l)] for a list whose elements are rendered by [f]. *)
Definition str_list_with {A} (f : A -> string) (l : list A) : string :=
  "[" ++ join ", " (map f l) ++ "]".

(** [str(l)] for a [List[str]]: the elements appear through [repr]. *)
Definition str_list (l : list string) : string := str_list_with repr_str l.

Definition str_bool (b : bool) : string := if b then "True" else "False".

Definition str_int (z : Z) : string := NilEmpty.string_of_int (Z.to_int z).

End Py.

(** ** Data model *)

(** class [OutlineSection] *)
Inductive OutlineSection : Type :=
  mkOutlineSection {
    title : string;
    key_points : list string;
    subsections : list OutlineSection
  }.

(** class [OutlineCriteria] *)
Record OutlineCriteria : Type :=
  mkOutlineCriteria {
    meets_requirements : bool;
    missing_elements : list string;
    suggestions : list string
  }.

(** class [DocumentContent] *)
Record DocumentContent : Type :=
  mkDocumentContent {
    content : string;
    sections_covered : list string
  }.

(** class [DocumentWorkflowAgent]; [messages] is never read. *)
Record DocumentWorkflowAgent : Type :=
  mkAgent {
    messages : list string;
    max_retries : Z
  }.

(** An exception value: the name of its class, the names of the classes
    that class derives from, and its message, which is [str(e)]. *)
Record PyException : Type :=
  mkException {
    exc_class : string;
    exc_bases : list string;
    exc_message : string
  }.

(** [isinstance(e, Exception)]: the class of [e] is [Exception] or
    derives from it. [KeyboardInterrupt], [SystemExit] and
    [asyncio.CancelledError] derive from [BaseException] only. *)
Definition is_exception (e : PyException) : bool :=
  existsb (String.eqb "Exception") (exc_class e :: exc_bases e).

(** ** pydantic's renderings of the models *)

Module Render.

Import Text Py.

(** [repr] of an [OutlineSection]: class name, then [field=repr] pairs. *)
Fixpoint repr_section (s : OutlineSection) : string :=
  match s with
  | mkOutlineSection t kp subs =>
      "OutlineSection(title=" ++ repr_str t
      ++ ", key_points=" ++ str_list kp
      ++ ", subsections=" ++ "[" ++ join ", " (map repr_section subs) ++ "]"
      ++ ")"
  end.

(** [str] of a [List[OutlineSection]]. *)
Definition str_outline (o : list OutlineSection) : string :=
  str_list_with repr_section o.

(** [str] of a value that is an outline or [None]. *)
Definition str_opt_outline (o : option (list OutlineSection)) : string :=
  match o with
  | Some l => str_outline l
  | None => "None"
  end.

(** [str] of an [OutlineCriteria]: [field=repr] pairs, space separated. *)
Definition str_criteria (v : OutlineCriteria) : string :=
  "meets_requirements=" ++ str_bool (meets_requirements v)
  ++ " missing_elements=" ++ str_list (missing_elements v)
  ++ " suggestions=" ++ str_list (suggestions v).

End Render.

(** ** The prompt builders (the bodies of the decorated methods) *)

Import Text Py Render.

Definition spaces (n : nat) : string := string_of_list_ascii (repeat " "%char n).

(** Body of [create_outline]. *)
Definition create_outline_prompt (topic requirements feedback : string) : string :=
  let prompt :=
    "Create a structured document outline for: " ++ topic ++ nl
    ++ spaces 20 ++ "Requirements: " ++ requirements ++ nl
    ++ spaces 20 in
  if truthy feedback
  then prompt ++ nl ++ "Previous feedback to address: " ++ feedback
  else prompt.

(** Body of [validate_outline]. *)
Definition validate_outline_prompt (outline : list OutlineSection) (criteria : string) : string :=
  "Evaluate this outline against the following criteria:" ++ nl
  ++ spaces 18 ++ criteria ++ nl
  ++ spaces 18 ++ nl
  ++ spaces 18 ++ "Outline to evaluate:" ++ nl
  ++ spaces 18 ++ str_outline outline ++ "  " ++ nl
  ++ spaces 16.

(** The [for] loop of [generate_document]: [prompt += f"- {suggestion}"]. *)
Fixpoint add_suggestions (prompt : string) (l : list string) : string :=
  match l with
  | [] => prompt
  | suggestion :: rest => add_suggestions (prompt ++ "- " ++ suggestion) rest
  end.

(** Python truthiness of a list. *)
Definition nonempty {A} (l : list A) : bool :=
  match l with [] => false | _ :: _ => true end.

(** Body of [generate_document]. *)
Definition generate_document_prompt
    (outline : option (list OutlineSection)) (validation : option OutlineCriteria) : string :=
  let prompt :=
    "Write a complete document following this outline:" ++ nl
    ++ spaces 18 ++ str_opt_outline outline ++ nl
    ++ spaces 18 ++ nl
    ++ spaces 18 ++ "Ensure each section addresses all key points listed." in
  match validation with
  | Some v =>
      if nonempty (suggestions v)
      then add_suggestions (prompt ++ nl ++ "Please incorporate these suggestions:" ++ nl)
                           (suggestions v)
      else prompt
  | None => prompt
  end.

(** The [feedback] expression of [run]:
    [f"{validation.missing_elements}\n{validation.suggestions}" if validation else ""]. *)
Definition feedback_of (validation : option OutlineCriteria) : string :=
  match validation with
  | Some v => str_list (missing_elements v) ++ nl ++ str_list (suggestions v)
  | None => ""
  end.

(** ** The Generation Port and the effects of [run] *)

(** What a call of the port answers: a value of the response model, or
    an exception. *)
Inductive reply (A : Type) : Type :=
| Returns (a : A)
| Fails (e : PyException).
Arguments Returns {A} a.
Arguments Fails {A} e.

(** The port of one run: the answer to the n-th call (counted from 0),
    for each of the three response models. *)
Record GenerationPort : Type :=
  mkPort {
    outline_reply : nat -> reply (list OutlineSection);
    criteria_reply : nat -> reply OutlineCriteria;
    document_reply : nat -> reply DocumentContent
  }.

(** A call of a decorated method, with the arguments it was given. *)
Inductive Call : Type :=
| CreateOutline (topic requirements feedback : string)
| ValidateOutline (outline : list OutlineSection) (criteria : string)
| GenerateDocument (outline : option (list OutlineSection))
                   (validation : option OutlineCriteria).

(** The instruction text the call sends: the return value of the
    method's body. *)
Definition instructions (c : Call) : string :=
  match c with
  | CreateOutline topic requirements feedback =>
      create_outline_prompt topic requirements feedback
  | ValidateOutline outline criteria => validate_outline_prompt outline criteria
  | GenerateDocument outline validation => generate_document_prompt outline validation
  end.

(** What a run leaves behind: the port calls made, in order, and the
    printed lines, in order. *)
Record World : Type :=
  mkWorld {
    calls : list Call;
    stdout : list string
  }.

Definition fresh : World := mkWorld [] [].

(** How a computation ends: with a value, with an exception, or
    not at all. [Diverge] is what the loop below gives when its fuel is
    used up; [run_terminates] shows that [run] never does. *)
Inductive outcome (A : Type) : Type :=
| Ok (a : A)
| Raise (e : PyException)
| Diverge.
Arguments Ok {A} a.
Arguments Raise {A} e.
Arguments Diverge {A}.

Definition M (A : Type) : Type := World -> outcome A * World.

Definition ret {A} (a : A) : M A := fun w => (Ok a, w).

Definition bind {A B} (m : M A) (k : A -> M B) : M B :=
  fun w =>
    match m w with
    | (Ok a, w') => k a w'
    | (Raise e, w') => (Raise e, w')
    | (Diverge, w') => (Diverge, w')
    end.

Definition raise {A} (e : PyException) : M A := fun w => (Raise e, w).

Definition diverge {A} : M A := fun w => (Diverge, w).

(** [try: body  except Exception as e: handler e]. An exception that
    is no instance of [Exception] passes the handler by. *)
Definition try_except {A} (body : M A) (handler : PyException -> M A) : M A :=
  fun w =>
    match body w with
    | (Raise e, w') => if is_exception e then handler e w' else (Raise e, w')
    | r => r
    end.

Definition print (line : string) : M unit :=
  fun w => (Ok tt, mkWorld (calls w) (stdout w ++ [line])%list).

(** One call of the port: it is recorded, and the port's answer for
    this call number decides between a value and an exception. *)
Definition generation {A} (answers : nat -> reply A) (c : Call) : M A :=
  fun w =>
    let w' := mkWorld (calls w ++ [c])%list (stdout w) in
    match answers (length (calls w)) with
    | Returns a => (Ok a, w')
    | Fails e => (Raise e, w')
    end.

Declare Scope workflow_scope.
Delimit Scope workflow_scope with wf.
Notation "x <- c1 ;; c2" := (bind c1 (fun x => c2))
  (at level 61, c1 at next level, right associativity) : workflow_scope.
Notation "c1 ;; c2" := (bind c1 (fun _ => c2))
  (at level 61, right associativity) : workflow_scope.
Local Open Scope workflow_scope.

(** ** The methods of [DocumentWorkflowAgent] *)

Definition create_outline (P : GenerationPort)
    (topic requirements feedback : string) : M (list OutlineSection) :=
  generation (outline_reply P) (CreateOutline topic requirements feedback).

Definition validate_outline (P : GenerationPort)
    (outline : list OutlineSection) (criteria : string) : M OutlineCriteria :=
  generation (criteria_reply P) (ValidateOutline outline criteria).

Definition generate_document (P : GenerationPort)
    (outline : option (list OutlineSection)) (validation : option OutlineCriteria)
    : M DocumentContent :=
  generation (document_reply P) (GenerateDocument outline validation).

(** How the [while] statement of [run] is left: by its condition or by
    [break], with the variables as they stand, or by [return]. *)
Inductive LoopExit : Type :=
| Leaves (outline : option (list OutlineSection)) (validation : option OutlineCriteria)
| Returned (text : string).

(** The [while attempt < self.max_retries] statement of [run]. *)
Fixpoint while_loop (fuel : nat) (self : DocumentWorkflowAgent) (P : GenerationPort)
    (topic requirements criteria : string)
    (attempt : Z) (outline : option (list OutlineSection))
    (validation : option OutlineCriteria) : M LoopExit :=
  if (attempt <? max_retries self)%Z then
    match fuel with
    | O => diverge
    | S fuel' =>
        print (nl ++ "Attempt " ++ str_int (attempt + 1) ++ ": "
               ++ (if (attempt =? 0)%Z then "Creating" else "Revising")
               ++ " outline...") ;;
        let feedback := feedback_of validation in
        outline' <- create_outline P topic requirements feedback ;;
        print ((if (attempt =? 0)%Z then "Initial" else "Revised")
               ++ " outline created: " ++ str_outline outline') ;;
        print "Validating outline..." ;;
        validation' <- validate_outline P outline' criteria ;;
        print ("Validation results: " ++ str_criteria validation') ;;
        if meets_requirements validation' then
          print (nl ++ "Outline meets all requirements!") ;;
          ret (Leaves (Some outline') (Some validation'))
        else
          let attempt' := (attempt + 1)%Z in
          if (attempt' =? max_retries self)%Z then
            print (nl ++ "Failed to create satisfactory outline after "
                   ++ str_int (max_retries self) ++ " attempts") ;;
            ret (Returned ("Failed to create satisfactory outline. Last validation: "
                           ++ str_criteria validation'))
          else
            while_loop fuel' self P topic requirements criteria
                       attempt' (Some outline') (Some validation')
    end
  else ret (Leaves outline validation).

(** [DocumentWorkflowAgent.run] *)
Definition run (self : DocumentWorkflowAgent) (P : GenerationPort)
    (topic requirements criteria : string) : M string :=
  try_except
    (exit <- while_loop (Z.to_nat (max_retries self)) self P
                        topic requirements criteria 0%Z None None ;;
     match exit with
     | Returned text => ret text
     | Leaves outline validation =>
         print (nl ++ "Generating final document...") ;;
         document <- generate_document P outline validation ;;
         ret (content document)
     end)
    (fun e =>
       print ("Error in workflow: " ++ exc_message e) ;;
       raise e).

(** ** Example scenarios *)

Module Scenario.

(** A port given by the list of its answers; a call past the end of
    the list raises. *)
Definition timeout : PyException :=
  mkException "TimeoutError" ["OSError"; "Exception"; "BaseException"] "request timed out".

Definition scripted {A} (answers : list (reply A)) (n : nat) : reply A :=
  nth n answers (Fails timeout).

Definition O0 : list OutlineSection :=
  [mkOutlineSection "Introduction" ["scope"] []].
Definition O1 : list OutlineSection :=
  [mkOutlineSection "Introduction" ["scope"; "examples"]
     [mkOutlineSection "Case study" ["incident"] []]].

Definition V0 : OutlineCriteria := mkOutlineCriteria false ["examples"] ["add case study"].
Definition V1 : OutlineCriteria := mkOutlineCriteria true [] ["keep it short"].

Definition D : DocumentContent := mkDocumentContent "The document." ["Introduction"].

Definition boom : PyException :=
  mkException "RuntimeError" ["Exception"; "BaseException"] "upstream rejected".


(** Attempt 0 is rejected, attempt 1 is accepted, the document follows. *)
Definition accepting : GenerationPort :=
  mkPort (scripted [Returns O0; Fails boom; Returns O1])
         (scripted [Fails boom; Returns V0; Fails boom; Returns V1])
         (scripted [Fails boom; Fails boom; Fails boom; Fails boom; Returns D]).

(** As [accepting] for the calls 0 to 4, different afterwards. *)
Definition accepting' : GenerationPort :=
  mkPort (scripted [Returns O0; Fails boom; Returns O1; Fails boom; Fails boom; Returns O0])
         (scripted [Fails boom; Returns V0; Fails boom; Returns V1; Fails boom; Returns V0])
         (scripted [Fails boom; Fails boom; Fails boom; Fails boom; Returns D; Returns D]).

(** Every attempt is rejected. *)
Definition rejecting : GenerationPort :=
  mkPort (fun _ => Returns O0) (fun _ => Returns V0) (fun _ => Returns D).

(** The second validation call raises. *)
Definition failing : GenerationPort :=
  mkPort (scripted [Returns O0; Fails boom; Returns O1])
         (scripted [Fails boom; Returns V0; Fails boom; Fails boom])
         (scripted []).


Definition agent (n : Z) : DocumentWorkflowAgent := mkAgent [] n.

Definition topic : string := "Zero trust".
Definition requirements : string := "five sections".
Definition criteria : string := "balanced coverage".

End Scenario.

(** The renderings on small inputs, as Python and pydantic print them. *)

Example str_list_of_two :
  str_list ["examples"; "add case study"] = "['examples', 'add case study']".
Proof. reflexivity. Qed.

Example str_list_of_none : str_list [] = "[]".
Proof. reflexivity. Qed.

Example repr_str_escapes : repr_str ("a" ++ nl ++ "b\c") = "'a\nb\\c'".
Proof. reflexivity. Qed.

Example repr_str_switches_quote :
  repr_str "it's" = String dquote ("it's" ++ String dquote "").
Proof. reflexivity. Qed.

Example str_criteria_of_rejection :
  str_criteria Scenario.V0
  = "meets_requirements=False missing_elements=['examples'] suggestions=['add case study']".
Proof. reflexivity. Qed.

Example str_outline_of_nested :
  str_outline Scenario.O1
  = "[OutlineSection(title='Introduction', key_points=['scope', 'examples'], "
    ++ "subsections=[OutlineSection(title='Case study', key_points=['incident'], "
    ++ "subsections=[])])]".
Proof. reflexivity. Qed.

(** The second scenario of the spec: one attempt allowed, rejected. *)
Example one_attempt_rejected :
  run (Scenario.agent 1) Scenario.rejecting
      Scenario.topic Scenario.requirements Scenario.criteria fresh
  = (Ok ("Failed to create satisfactory outline. Last validation: "
         ++ "meets_requirements=False missing_elements=['examples'] "
         ++ "suggestions=['add case study']"),
     mkWorld
       [CreateOutline Scenario.topic Scenario.requirements "";
        ValidateOutline Scenario.O0 Scenario.criteria]
       [nl ++ "Attempt 1: Creating outline...";
        "Initial outline created: "
        ++ "[OutlineSection(title='Introduction', key_points=['scope'], subsections=[])]";
        "Validating outline...";
        "Validation results: meets_requirements=False "
        ++ "missing_elements=['examples'] suggestions=['add case study']";
        nl ++ "Failed to create satisfactory outline after 1 attempts"]).
Proof. reflexivity. Qed.

(** ** Facts on texts *)

Lemma append_assoc (a b c : string) : (a ++ b) ++ c = a ++ (b ++ c).
Proof. induction a as [|x a IH]; cbn; [reflexivity | now rewrite IH]. Qed.

Lemma append_nil_r (a : string) : a ++ "" = a.
Proof. induction a as [|x a IH]; cbn; [reflexivity | now rewrite IH]. Qed.

Lemma contains_here (x b : string) : contains x (x ++ b).
Proof. now exists "", b. Qed.

Lemma contains_refl (x : string) : contains x x.
Proof. exists "", "". cbn. now rewrite append_nil_r. Qed.

Lemma contains_app_r (x a b : string) : contains x b -> contains x (a ++ b).
Proof.
  intros (pre & post & ->). exists (a ++ pre), post. now rewrite append_assoc.
Qed.

Lemma contains_app_l (x a b : string) : contains x a -> contains x (a ++ b).
Proof.
  intros (pre & post & ->). exists pre, (post ++ b). now rewrite !append_assoc.
Qed.

Lemma contains_trans (x y z : string) : contains x y -> contains y z -> contains x z.
Proof.
  intros (p1 & q1 & ->) (p2 & q2 & ->).
  exists (p2 ++ p1), (q1 ++ q2). now rewrite !append_assoc.
Qed.

Lemma join_contains (sep x : string) (l : list string) :
  In x l -> contains x (join sep l).
Proof.
  induction l as [|y rest IH]; intros Hin; [contradiction|].
  destruct rest as [|z rest'].
  - destruct Hin as [->|[]]. apply contains_refl.
  - change (join sep (y :: z :: rest')) with (y ++ sep ++ join sep (z :: rest')).
    destruct Hin as [->|Hin]; [apply contains_here|].
    apply contains_app_r, contains_app_r. now apply IH.
Qed.

(** A text that [repr] leaves as it is between single quotes: printable
    characters only, no single quote, no backslash. *)
Definition plain_char (c : ascii) : bool :=
  printable (nat_of_ascii c) && negb (Ascii.eqb c "'"%char) && negb (Ascii.eqb c "\"%char).

Fixpoint plain (s : string) : bool :=
  match s with
  | EmptyString => true
  | String c s' => plain_char c && plain s'
  end.

Lemma repr_char_plain (c : ascii) :
  plain_char c = true -> repr_char "'"%char c = String c "".
Proof.
  unfold plain_char, repr_char. intros H.
  apply andb_prop in H as [H Hb]. apply andb_prop in H as [Hp Hq].
  apply negb_true_iff in Hb, Hq. rewrite Hq, Hb, Hp. cbn [orb].
  assert (32 <= nat_of_ascii c).
  { unfold printable in Hp. apply negb_true_iff in Hp.
    apply orb_false_elim in Hp as [Hp _]. apply orb_false_elim in Hp as [Hlow _].
    now apply Nat.ltb_ge in Hlow. }
  destruct (Nat.eqb_spec (nat_of_ascii c) 9); [lia|].
  destruct (Nat.eqb_spec (nat_of_ascii c) 10); [lia|].
  destruct (Nat.eqb_spec (nat_of_ascii c) 13); [lia|].
  reflexivity.
Qed.

Lemma repr_body_plain (s : string) :
  plain s = true -> repr_body "'"%char s = s /\ has_char "'"%char s = false.
Proof.
  induction s as [|c s IH]; intros H; [now split|].
  cbn [plain] in H. apply andb_prop in H as [Hc Hs].
  destruct (IH Hs) as [Hbody Hq].
  cbn [repr_body has_char]. rewrite (repr_char_plain c Hc), Hbody, Hq.
  split; [reflexivity|].
  unfold plain_char in Hc. apply andb_prop in Hc as [Hc _].
  apply andb_prop in Hc as [_ Hc]. apply negb_true_iff in Hc.
  rewrite Ascii.eqb_sym, Hc. reflexivity.
Qed.

Lemma repr_str_plain (s : string) :
  plain s = true -> repr_str s = "'" ++ s ++ "'".
Proof.
  intros H. destruct (repr_body_plain s H) as [Hbody Hq].
  unfold repr_str, repr_quote. rewrite Hq. cbn [andb]. now rewrite Hbody.
Qed.

(** A plain element of a list stands, as it is, in the rendering of the
    list. *)
Lemma str_list_contains_plain (l : list string) (x : string) :
  In x l -> plain x = true -> contains x (str_list l).
Proof.
  intros Hin Hplain. unfold str_list, str_list_with.
  apply contains_app_r, contains_app_l.
  apply contains_trans with (y := repr_str x).
  - rewrite (repr_str_plain x Hplain). apply contains_app_r, contains_here.
  - apply join_contains. now apply in_map.
Qed.

(** The rendering of a list is never the empty text. *)
Lemma str_list_truthy (l : list string) : truthy (str_list l) = true.
Proof. reflexivity. Qed.

Lemma feedback_truthy (v : OutlineCriteria) : truthy (feedback_of (Some v)) = true.
Proof. reflexivity. Qed.

(** What the [for] loop of [generate_document] appends. *)
Fixpoint bullets (l : list string) : string :=
  match l with
  | [] => ""
  | suggestion :: rest => "- " ++ suggestion ++ bullets rest
  end.

Lemma add_suggestions_bullets (l : list string) :
  forall prompt, add_suggestions prompt l = prompt ++ bullets l.
Proof.
  induction l as [|x rest IH]; intros prompt; cbn [add_suggestions bullets].
  - now rewrite append_nil_r.
  - rewrite IH. now rewrite !append_assoc.
Qed.

Lemma bullets_contains (l : list string) (x : string) :
  In x l -> contains ("- " ++ x) (bullets l).
Proof.
  induction l as [|y rest IH]; intros Hin; [contradiction|].
  destruct Hin as [->|Hin]; cbn [bullets].
  - rewrite <- append_assoc. apply contains_here.
  - change ("- " ++ y ++ bullets rest) with ("- " ++ (y ++ bullets rest)).
    apply contains_app_r, contains_app_r. now apply IH.
Qed.

(** ** One pass through the loop body *)

Section Workflow.

Variable self : DocumentWorkflowAgent.
Variable P : GenerationPort.
Variables topic requirements criteria : string.

(** The lines the loop body prints. *)
Definition notice_attempt (attempt : Z) : string :=
  nl ++ "Attempt " ++ str_int (attempt + 1) ++ ": "
  ++ (if (attempt =? 0)%Z then "Creating" else "Revising") ++ " outline...".

Definition notice_outline (attempt : Z) (o : list OutlineSection) : string :=
  (if (attempt =? 0)%Z then "Initial" else "Revised")
  ++ " outline created: " ++ str_outline o.

Definition notice_validation (v : OutlineCriteria) : string :=
  "Validation results: " ++ str_criteria v.

Definition notice_exhausted : string :=
  nl ++ "Failed to create satisfactory outline after "
  ++ str_int (max_retries self) ++ " attempts".

Definition notice_accepted : string := nl ++ "Outline meets all requirements!".

Definition notice_generating : string := nl ++ "Generating final document...".

Definition notice_error (e : PyException) : string :=
  "Error in workflow: " ++ exc_message e.

(** The text [run] returns when the budget is used up. *)
Definition failure_text (v : OutlineCriteria) : string :=
  "Failed to create satisfactory outline. Last validation: " ++ str_criteria v.

Definition draft_call (validation : option OutlineCriteria) : Call :=
  CreateOutline topic requirements (feedback_of validation).

Definition check_call (o : list OutlineSection) : Call :=
  ValidateOutline o criteria.

Lemma while_loop_step fuel attempt outline validation w :
  while_loop (S fuel) self P topic requirements criteria attempt outline validation w =
  if (attempt <? max_retries self)%Z then
    match outline_reply P (length (calls w)) with
    | Fails e =>
        (Raise e,
         mkWorld (calls w ++ [draft_call validation])%list
                 (stdout w ++ [notice_attempt attempt])%list)
    | Returns o =>
        match criteria_reply P (S (length (calls w))) with
        | Fails e =>
            (Raise e,
             mkWorld (calls w ++ [draft_call validation; check_call o])%list
                     (stdout w ++ [notice_attempt attempt; notice_outline attempt o;
                                   "Validating outline..."])%list)
        | Returns v =>
            let out := (stdout w ++ [notice_attempt attempt; notice_outline attempt o;
                                     "Validating outline..."; notice_validation v])%list in
            let cs := (calls w ++ [draft_call validation; check_call o])%list in
            if meets_requirements v then
              (Ok (Leaves (Some o) (Some v)),
               mkWorld cs (out ++ [notice_accepted])%list)
            else if (attempt + 1 =? max_retries self)%Z then
              (Ok (Returned (failure_text v)),
               mkWorld cs (out ++ [notice_exhausted])%list)
            else
              while_loop fuel self P topic requirements criteria
                         (attempt + 1)%Z (Some o) (Some v) (mkWorld cs out)
        end
    end
  else (Ok (Leaves outline validation), w).
Proof.
  cbn [while_loop].
  destruct (attempt <? max_retries self)%Z; [|reflexivity].
  unfold bind, print, create_outline, validate_outline, generation, ret; cbn [calls stdout].
  destruct (outline_reply P (length (calls w))) as [o|e]; [|reflexivity].
  cbn [calls stdout].
  rewrite length_app, Nat.add_comm; cbn [length Nat.add].
  destruct (criteria_reply P (S (length (calls w)))) as [v|e];
    cbn [calls stdout]; rewrite <- !app_assoc; cbn [app]; [|reflexivity].
  destruct (meets_requirements v); cbn [calls stdout];
    rewrite <- ?app_assoc; cbn [app]; [reflexivity|].
  cbv zeta.
  destruct (attempt + 1 =? max_retries self)%Z; cbn [calls stdout];
    rewrite <- ?app_assoc; reflexivity.
Qed.

(** ** What a run can do, told from the port's answers *)

(** A completed attempt: the outline drafted and the verdict on it. *)
Definition Attempt : Type := (list OutlineSection * OutlineCriteria)%type.

(** The calls of a row of completed attempts; [prev] is the verdict
    in force when the first of them starts. *)
Fixpoint cycle_calls (prev : option OutlineCriteria) (ovs : list Attempt) : list Call :=
  match ovs with
  | [] => []
  | (o, v) :: rest => draft_call prev :: check_call o :: cycle_calls (Some v) rest
  end.

(** From call number [n] on, the port answered the attempts [ovs] one
    after the other, each with an outline and a rejecting verdict. *)
Fixpoint answered (n : nat) (ovs : list Attempt) : Prop :=
  match ovs with
  | [] => True
  | (o, v) :: rest =>
      outline_reply P n = Returns o /\
      criteria_reply P (S n) = Returns v /\
      meets_requirements v = false /\
      answered (S (S n)) rest
  end.

Fixpoint final_attempt (prev : option Attempt) (ovs : list Attempt) : option Attempt :=
  match ovs with
  | [] => prev
  | a :: rest => final_attempt (Some a) rest
  end.

Definition verdict_of (a : option Attempt) : option OutlineCriteria := option_map snd a.
Definition outline_of (a : option Attempt) : option (list OutlineSection) := option_map fst a.

(** The ways the [while] statement can go when it is entered with the
    counter at [a], after [n0] calls, the variables holding [prev]: the
    outcome and the calls it adds. *)
Inductive loop_spec (a : Z) (n0 : nat) (prev : option Attempt)
  : outcome LoopExit -> list Call -> Prop :=
| loop_skipped :
    (max_retries self <= a)%Z ->
    loop_spec a n0 prev (Ok (Leaves (outline_of prev) (verdict_of prev))) []
| loop_accepted ovs m o v :
    answered n0 ovs ->
    (a + Z.of_nat (length ovs) < max_retries self)%Z ->
    m = n0 + 2 * length ovs ->
    outline_reply P m = Returns o ->
    criteria_reply P (S m) = Returns v ->
    meets_requirements v = true ->
    loop_spec a n0 prev (Ok (Leaves (Some o) (Some v)))
      (cycle_calls (verdict_of prev) ovs
       ++ [draft_call (verdict_of (final_attempt prev ovs)); check_call o])%list
| loop_exhausted ovs o v :
    answered n0 ovs ->
    final_attempt None ovs = Some (o, v) ->
    (a + Z.of_nat (length ovs) = max_retries self)%Z ->
    loop_spec a n0 prev (Ok (Returned (failure_text v)))
      (cycle_calls (verdict_of prev) ovs)
| loop_draft_failed ovs m e :
    answered n0 ovs ->
    (a + Z.of_nat (length ovs) < max_retries self)%Z ->
    m = n0 + 2 * length ovs ->
    outline_reply P m = Fails e ->
    loop_spec a n0 prev (Raise e)
      (cycle_calls (verdict_of prev) ovs
       ++ [draft_call (verdict_of (final_attempt prev ovs))])%list
| loop_check_failed ovs m o e :
    answered n0 ovs ->
    (a + Z.of_nat (length ovs) < max_retries self)%Z ->
    m = n0 + 2 * length ovs ->
    outline_reply P m = Returns o ->
    criteria_reply P (S m) = Fails e ->
    loop_spec a n0 prev (Raise e)
      (cycle_calls (verdict_of prev) ovs
       ++ [draft_call (verdict_of (final_attempt prev ovs)); check_call o])%list.

(** Closes a goal on a port answer from the same answer at an index
    that is equal by arithmetic. *)
Ltac same_answer :=
  match goal with
  | H : ?f ?p ?i = ?r |- ?f ?p ?j = ?r => replace j with i by lia; exact H
  end.

(** A rejected attempt in front of a way through the loop is again a
    way through the loop. *)
Lemma loop_spec_retry a n0 prev o v res l :
  (a < max_retries self)%Z ->
  outline_reply P n0 = Returns o ->
  criteria_reply P (S n0) = Returns v ->
  meets_requirements v = false ->
  (a + 1 <> max_retries self)%Z ->
  loop_spec (a + 1) (S (S n0)) (Some (o, v)) res l ->
  loop_spec a n0 prev res (draft_call (verdict_of prev) :: check_call o :: l).
Proof.
  intros Ha Ho Hv Hm Hne H.
  inversion H; subst; clear H.
  - lia.
  - change (draft_call (verdict_of prev) :: check_call o
            :: cycle_calls (verdict_of (Some (o, v))) ovs ++ _)%list
      with (cycle_calls (verdict_of prev) ((o, v) :: ovs)
            ++ [draft_call (verdict_of (final_attempt prev ((o, v) :: ovs)));
                check_call o0])%list.
    eapply loop_accepted; eauto; cbn [answered length]; try lia; auto; same_answer.
  - change (draft_call (verdict_of prev) :: check_call o
            :: cycle_calls (verdict_of (Some (o, v))) ovs)%list
      with (cycle_calls (verdict_of prev) ((o, v) :: ovs)).
    eapply loop_exhausted with (o := o0); cbn [answered length]; try lia; auto.
    destruct ovs; [discriminate | exact H1].
  - change (draft_call (verdict_of prev) :: check_call o
            :: cycle_calls (verdict_of (Some (o, v))) ovs ++ _)%list
      with (cycle_calls (verdict_of prev) ((o, v) :: ovs)
            ++ [draft_call (verdict_of (final_attempt prev ((o, v) :: ovs)))])%list.
    eapply loop_draft_failed; eauto; cbn [answered length]; try lia; auto; same_answer.
  - change (draft_call (verdict_of prev) :: check_call o
            :: cycle_calls (verdict_of (Some (o, v))) ovs ++ _)%list
      with (cycle_calls (verdict_of prev) ((o, v) :: ovs)
            ++ [draft_call (verdict_of (final_attempt prev ((o, v) :: ovs)));
                check_call o0])%list.
    eapply loop_check_failed; eauto; cbn [answered length]; try lia; auto; same_answer.
Qed.

Definition loop_from (fuel : nat) (a : Z) (prev : option Attempt) : M LoopExit :=
  while_loop fuel self P topic requirements criteria a (outline_of prev) (verdict_of prev).

(** With fuel for the attempts that are left, the loop goes one of the
    ways of [loop_spec], and only adds calls. *)
Lemma while_loop_spec fuel :
  forall a prev w,
    (Z.to_nat (max_retries self - a) <= fuel)%nat ->
    exists l,
      loop_spec a (length (calls w)) prev (fst (loop_from fuel a prev w)) l /\
      calls (snd (loop_from fuel a prev w)) = (calls w ++ l)%list.
Proof.
  unfold loop_from.
  induction fuel as [|fuel IH]; intros a prev w Hfuel.
  - cbn [while_loop].
    destruct (Z.ltb_spec a (max_retries self)); [lia|].
    exists []. rewrite app_nil_r. split; [now constructor | reflexivity].
  - rewrite while_loop_step.
    destruct (Z.ltb_spec a (max_retries self)) as [Hlt|Hge].
    2:{ exists []. rewrite app_nil_r. split; [now constructor | reflexivity]. }
    destruct (outline_reply P (length (calls w))) as [o|e] eqn:Ho.
    2:{ eexists; split; [|reflexivity]. cbn [fst].
        apply (loop_draft_failed a _ prev [] (length (calls w)));
          cbn [answered length]; auto; lia. }
    destruct (criteria_reply P (S (length (calls w)))) as [v|e] eqn:Hv.
    2:{ eexists; split; [|reflexivity]. cbn [fst].
        apply (loop_check_failed a _ prev [] (length (calls w)));
          cbn [answered length]; auto; lia. }
    cbv zeta.
    destruct (meets_requirements v) eqn:Hm.
    { eexists; split; [|reflexivity]. cbn [fst].
      apply (loop_accepted a _ prev [] (length (calls w)));
        cbn [answered length]; auto; lia. }
    destruct (Z.eqb_spec (a + 1) (max_retries self)) as [Heq|Hne].
    { exists [draft_call (verdict_of prev); check_call o]. split; [|reflexivity].
      cbn [fst].
      apply (loop_exhausted a _ prev [(o, v)] o v);
        cbn [answered length final_attempt]; auto; lia. }
    specialize (IH (a + 1)%Z (Some (o, v))
                  (mkWorld (calls w ++ [draft_call (verdict_of prev); check_call o])%list
                           (stdout w ++ [notice_attempt a; notice_outline a o;
                                         "Validating outline..."; notice_validation v])%list)).
    destruct IH as [l [Hspec Hcalls]]; [lia|].
    cbn [outline_of verdict_of option_map fst snd] in Hspec, Hcalls.
    exists (draft_call (verdict_of prev) :: check_call o :: l).
    split.
    + apply loop_spec_retry with (v := v); auto.
      cbn [calls] in Hspec. rewrite length_app in Hspec. cbn [length] in Hspec.
      replace (length (calls w) + 2) with (S (S (length (calls w)))) in Hspec by lia.
      exact Hspec.
    + rewrite Hcalls. cbn [calls]. rewrite <- app_assoc. reflexivity.
Qed.

(** The ways a whole run can go: the outcome and the calls made. *)
Inductive run_spec : outcome string -> list Call -> Prop :=
| run_exhausted text l :
    loop_spec 0 0 None (Ok (Returned text)) l ->
    run_spec (Ok text) l
| run_loop_raised e l :
    loop_spec 0 0 None (Raise e) l ->
    run_spec (Raise e) l
| run_generated outline validation l d :
    loop_spec 0 0 None (Ok (Leaves outline validation)) l ->
    document_reply P (length l) = Returns d ->
    run_spec (Ok (content d)) (l ++ [GenerateDocument outline validation])%list
| run_generate_raised outline validation l e :
    loop_spec 0 0 None (Ok (Leaves outline validation)) l ->
    document_reply P (length l) = Fails e ->
    run_spec (Raise e) (l ++ [GenerateDocument outline validation])%list.

(** One run of the workflow, started with nothing called or printed. *)
Definition execution : outcome string * World :=
  run self P topic requirements criteria fresh.

Definition result : outcome string := fst execution.
Definition trace : list Call := calls (snd execution).
Definition printed : list string := stdout (snd execution).

Lemma run_sound : run_spec result trace.
Proof.
  unfold result, trace, execution, run, try_except, bind.
  destruct (while_loop_spec (Z.to_nat (max_retries self)) 0%Z None fresh) as [l [Hspec Hcalls]].
  { rewrite Z.sub_0_r. lia. }
  unfold loop_from in Hspec, Hcalls. cbn [outline_of verdict_of option_map] in Hspec, Hcalls.
  cbn [fresh calls length app] in Hspec, Hcalls.
  destruct (while_loop _ self P topic requirements criteria 0%Z None None fresh)
    as [[[outline validation|text]|e|] w'].
  - cbn [fst snd] in Hspec, Hcalls.
    unfold print, generate_document, generation, ret. cbn [calls stdout].
    rewrite Hcalls.
    destruct (document_reply P (length l)) as [d|e] eqn:Hd; cbn [fst snd calls].
    + now apply run_generated.
    + destruct (is_exception e); cbn [fst snd calls]; now apply run_generate_raised.
  - cbn [fst snd] in *. unfold ret. cbn [fst snd]. rewrite Hcalls. now apply run_exhausted.
  - cbn [fst snd] in *. unfold print, raise.
    destruct (is_exception e); cbn [fst snd calls]; rewrite Hcalls;
      now apply run_loop_raised.
  - cbn [fst] in Hspec. inversion Hspec.
Qed.

(** [run] always comes to an end. *)
Lemma run_terminates : result <> Diverge.
Proof.
  pose proof run_sound as H. intros E. rewrite E in H. inversion H.
Qed.

(** An instance of [Exception] leaves [run] only through the handler,
    which prints its notice last. *)
Lemma raise_is_announced e :
  result = Raise e -> is_exception e = true ->
  exists out, printed = (out ++ [notice_error e])%list.
Proof.
  unfold result, printed, execution, run, try_except.
  match goal with |- context [bind ?m ?k fresh] => destruct (bind m k fresh) as [[text|e'|] w'] end;
    cbn [fst snd]; try discriminate.
  destruct (is_exception e') eqn:He'.
  - unfold bind, print, raise. cbn [fst snd stdout].
    intros E _. injection E as ->. now exists (stdout w').
  - cbn [fst snd]. intros E Hexc. injection E as ->. congruence.
Qed.

(** ** Reading the calls of a row of attempts by position *)

(** The verdict in force when attempt [i] of the row starts. *)
Definition verdict_before (prev : option OutlineCriteria) (ovs : list Attempt) (i : nat)
  : option OutlineCriteria :=
  match i with
  | 0 => prev
  | S j => option_map snd (nth_error ovs j)
  end.

Lemma cycle_calls_length prev ovs : length (cycle_calls prev ovs) = 2 * length ovs.
Proof.
  revert prev. induction ovs as [|[o v] rest IH]; intros prev; [reflexivity|].
  cbn [cycle_calls length]. rewrite IH. lia.
Qed.

Lemma cycle_calls_draft ovs :
  forall prev i, i < length ovs ->
    nth_error (cycle_calls prev ovs) (2 * i) = Some (draft_call (verdict_before prev ovs i)).
Proof.
  induction ovs as [|[o v] rest IH]; intros prev i Hi; cbn [length] in Hi; [lia|].
  destruct i as [|j]; [reflexivity|].
  replace (2 * S j) with (S (S (2 * j))) by lia.
  cbn [cycle_calls nth_error]. rewrite IH by lia.
  destruct j; reflexivity.
Qed.

Lemma cycle_calls_check ovs :
  forall prev i o v, nth_error ovs i = Some (o, v) ->
    nth_error (cycle_calls prev ovs) (S (2 * i)) = Some (check_call o).
Proof.
  induction ovs as [|[o' v'] rest IH]; intros prev i o v Hi.
  - destruct i; discriminate.
  - destruct i as [|j].
    + cbn in Hi. injection Hi as -> ->. reflexivity.
    + replace (2 * S j) with (S (S (2 * j))) by lia.
      cbn [cycle_calls nth_error]. cbn [nth_error] in Hi. now apply IH with (v := v).
Qed.

Lemma final_attempt_before ovs :
  forall prev,
    verdict_of (final_attempt prev ovs) = verdict_before (verdict_of prev) ovs (length ovs).
Proof.
  induction ovs as [|a rest IH]; intros prev; [reflexivity|].
  cbn [final_attempt length]. rewrite IH.
  destruct rest; reflexivity.
Qed.

Lemma final_attempt_last ovs :
  forall prev a, final_attempt prev ovs = Some a -> ovs <> [] ->
    nth_error ovs (length ovs - 1) = Some a.
Proof.
  induction ovs as [|b rest IH]; intros prev a H Hne; [congruence|].
  cbn [final_attempt] in H.
  destruct rest as [|c rest'].
  - cbn in H. cbn. congruence.
  - cbn [length]. replace (S (S (length rest')) - 1) with (S (length (c :: rest') - 1))
      by (cbn [length]; lia).
    cbn [nth_error]. apply IH with (prev := Some b); [exact H | discriminate].
Qed.

Lemma answered_nth ovs :
  forall n0 i o v,
    answered n0 ovs -> nth_error ovs i = Some (o, v) ->
    outline_reply P (n0 + 2 * i) = Returns o /\
    criteria_reply P (S (n0 + 2 * i)) = Returns v /\
    meets_requirements v = false.
Proof.
  induction ovs as [|[o' v'] rest IH]; intros n0 i o v Ha Hi.
  - destruct i; discriminate.
  - cbn [answered] in Ha. destruct Ha as (Ho & Hv & Hm & Hrest).
    destruct i as [|j].
    + cbn in Hi. injection Hi as <- <-.
      replace (n0 + 2 * 0) with n0 by lia. auto.
    + cbn [nth_error] in Hi.
      destruct (IH _ _ _ _ Hrest Hi) as (Ho' & Hv' & Hm').
      replace (n0 + 2 * S j) with (S (S n0) + 2 * j) by lia. auto.
Qed.

Lemma nth_error_defined {A} (l : list A) i :
  i < length l -> exists x, nth_error l i = Some x.
Proof.
  intros Hi. destruct (nth_error l i) as [x|] eqn:E; [now exists x|].
  apply nth_error_None in E. lia.
Qed.

(** ** Counting calls by kind *)

Definition is_draft (c : Call) : bool :=
  match c with CreateOutline _ _ _ => true | _ => false end.
Definition is_check (c : Call) : bool :=
  match c with ValidateOutline _ _ => true | _ => false end.
Definition is_generate (c : Call) : bool :=
  match c with GenerateDocument _ _ => true | _ => false end.

Definition count (kind : Call -> bool) (l : list Call) : nat := length (filter kind l).

Lemma count_app kind l1 l2 : count kind (l1 ++ l2)%list = count kind l1 + count kind l2.
Proof. unfold count. now rewrite filter_app, length_app. Qed.

Lemma count_cycle_calls prev ovs :
  count is_draft (cycle_calls prev ovs) = length ovs /\
  count is_check (cycle_calls prev ovs) = length ovs /\
  count is_generate (cycle_calls prev ovs) = 0.
Proof.
  revert prev. induction ovs as [|[o v] rest IH]; intros prev; [now cbn|].
  destruct (IH (Some v)) as (Hd & Hc & Hg).
  unfold count in *. cbn [cycle_calls filter draft_call check_call is_draft is_check is_generate length].
  now rewrite Hd, Hc, Hg.
Qed.

(** ** The accepting run *)

(** An attempt the port answers with an accepting verdict is not among
    the rejected ones. *)
Lemma accept_bound ovs k vk :
  answered 0 ovs ->
  criteria_reply P (2 * k + 1) = Returns vk ->
  meets_requirements vk = true ->
  length ovs <= k.
Proof.
  intros Ha Hv Hm.
  destruct (Nat.le_gt_cases (length ovs) k) as [|Hlt]; [assumption|exfalso].
  destruct (nth_error_defined ovs k Hlt) as [[o' v'] Hn].
  destruct (answered_nth _ _ _ _ _ Ha Hn) as (_ & Hv' & Hm').
  replace (S (0 + 2 * k)) with (2 * k + 1) in Hv' by lia.
  congruence.
Qed.

Lemma accepted_run (k : nat) (o : nat -> list OutlineSection)
    (v : nat -> OutlineCriteria) (d : DocumentContent) :
  (Z.of_nat k < max_retries self)%Z ->
  (forall i, i <= k -> outline_reply P (2 * i) = Returns (o i)) ->
  (forall i, i <= k -> criteria_reply P (2 * i + 1) = Returns (v i)) ->
  (forall i, i < k -> meets_requirements (v i) = false) ->
  meets_requirements (v k) = true ->
  document_reply P (2 * k + 2) = Returns d ->
  exists ovs,
    length ovs = k /\ answered 0 ovs /\
    result = Ok (content d) /\
    trace = (cycle_calls None ovs
             ++ [draft_call (verdict_before None ovs k); check_call (o k);
                 GenerateDocument (Some (o k)) (Some (v k))])%list.
Proof.
  intros Hk Ho Hv Hrej Hacc Hd.
  assert (Hbound : forall ovs, answered 0 ovs -> length ovs <= k).
  { intros ovs Ha. apply accept_bound with (vk := v k); auto. }
  assert (Hat : forall ovs m, answered 0 ovs -> m = 0 + 2 * length ovs ->
            outline_reply P m = Returns (o (length ovs)) /\
            criteria_reply P (S m) = Returns (v (length ovs))).
  { intros ovs m Ha ->. specialize (Hbound _ Ha). split.
    - rewrite <- Ho by lia. f_equal.
    - rewrite <- Hv by lia. f_equal. lia. }
  pose proof run_sound as Hrun.
  inversion Hrun as [text l Hl | e l Hl | ov vv l d' Hl Hd' | ov vv l e Hl Hd'];
    inversion Hl; subst.
  - (* budget used up *)
    match goal with H : answered 0 _ |- _ => specialize (Hbound _ H) end. lia.
  - (* a draft call raised *)
    match goal with H : answered 0 ?l, H' : outline_reply P _ = Fails _ |- _ =>
      destruct (Hat l _ H eq_refl) as [E _]; congruence end.
  - (* a validation call raised *)
    match goal with H : answered 0 ?l, H' : criteria_reply P _ = Fails _ |- _ =>
      destruct (Hat l _ H eq_refl) as [_ E]; congruence end.
  - (* the loop was never entered *)
    lia.
  - (* accepted, document produced *)
    match goal with H : answered 0 ?l |- _ =>
      rename H into Ha; pose proof (Hbound _ Ha) as Hle;
      destruct (Hat l _ Ha eq_refl) as [Eo Ev] end.
    match goal with
    | Ho' : outline_reply P _ = Returns ?o1, Hv' : criteria_reply P _ = Returns ?v1,
      Hm' : meets_requirements ?v1 = true |- _ =>
        assert (o1 = o (length ovs)) by congruence;
        assert (v1 = v (length ovs)) by congruence; subst o1 v1
    end.
    assert (length ovs = k).
    { destruct (Nat.eq_dec (length ovs) k); [assumption|].
      rewrite Hrej in * by lia. discriminate. }
    exists ovs. subst k. repeat split; auto.
    + f_equal.
      match goal with H : document_reply P _ = Returns d' |- _ =>
        rewrite length_app, cycle_calls_length in H; cbn [length] in H;
        rewrite Hd in H; injection H as -> end.
      reflexivity.
    + rewrite <- app_assoc. cbn [app]. now rewrite final_attempt_before.
  - lia.
  - (* accepted, the document call raised *)
    match goal with H : answered 0 ?l |- _ =>
      rename H into Ha; pose proof (Hbound _ Ha) as Hle;
      destruct (Hat l _ Ha eq_refl) as [Eo Ev] end.
    match goal with
    | Ho' : outline_reply P _ = Returns ?o1, Hv' : criteria_reply P _ = Returns ?v1,
      Hm' : meets_requirements ?v1 = true |- _ =>
        assert (v1 = v (length ovs)) by congruence; subst v1
    end.
    assert (length ovs = k).
    { destruct (Nat.eq_dec (length ovs) k); [assumption|].
      rewrite Hrej in * by lia. discriminate. }
    subst k.
    match goal with H : document_reply P _ = Fails _ |- _ =>
      rewrite length_app, cycle_calls_length in H; cbn [length] in H;
      rewrite Hd in H; discriminate end.
Qed.

(** ** The run that uses up its budget *)

Lemma exhausted_run (o : nat -> list OutlineSection) (v : nat -> OutlineCriteria) :
  (1 <= max_retries self)%Z ->
  (forall i, (Z.of_nat i < max_retries self)%Z -> outline_reply P (2 * i) = Returns (o i)) ->
  (forall i, (Z.of_nat i < max_retries self)%Z -> criteria_reply P (2 * i + 1) = Returns (v i)) ->
  (forall i, (Z.of_nat i < max_retries self)%Z -> meets_requirements (v i) = false) ->
  exists ovs,
    Z.of_nat (length ovs) = max_retries self /\ answered 0 ovs /\
    result = Ok (failure_text (v (length ovs - 1))) /\
    trace = cycle_calls None ovs.
Proof.
  intros Hmax Ho Hv Hrej.
  pose proof run_sound as Hrun.
  inversion Hrun as [text l Hl | e l Hl | ov vv l d' Hl Hd' | ov vv l e Hl Hd'];
    inversion Hl; subst;
    try lia;
    try match goal with
      | H : outline_reply P (0 + 2 * length ?l) = Fails _ |- _ =>
          cbn [Nat.add] in H; rewrite Ho in H by lia; discriminate
      | H : criteria_reply P (S (0 + 2 * length ?l)) = Fails _ |- _ =>
          replace (S (0 + 2 * length l)) with (2 * length l + 1) in H by lia;
          rewrite Hv in H by lia; discriminate
      | H : criteria_reply P (S (0 + 2 * length ?l)) = Returns ?v1,
        Hm : meets_requirements ?v1 = true |- _ =>
          replace (S (0 + 2 * length l)) with (2 * length l + 1) in H by lia;
          rewrite Hv in H by lia; injection H as <-;
          rewrite Hrej in Hm by lia; discriminate
      end.
  exists ovs. repeat split; auto.
  match goal with H : final_attempt None ovs = Some _ |- _ =>
    apply final_attempt_last in H; [|intros ->; discriminate]; rename H into Hlast end.
  match goal with H : answered 0 ovs |- _ =>
    destruct (answered_nth _ _ _ _ _ H Hlast) as (_ & Hv' & _) end.
  assert (0 < length ovs) by lia.
  replace (S (0 + 2 * (length ovs - 1))) with (2 * (length ovs - 1) + 1) in Hv' by lia.
  rewrite Hv in Hv' by lia. now injection Hv' as ->.
Qed.

(** ** Every call of a run, and what stands before it *)

(** How a trace ends after its row of rejected attempts. *)
Inductive tail_spec (ovs : list Attempt) : list Call -> Prop :=
| tail_none : tail_spec ovs []
| tail_draft : tail_spec ovs [draft_call (verdict_before None ovs (length ovs))]
| tail_check o :
    outline_reply P (2 * length ovs) = Returns o ->
    tail_spec ovs [draft_call (verdict_before None ovs (length ovs)); check_call o]
| tail_generate o v :
    outline_reply P (2 * length ovs) = Returns o ->
    criteria_reply P (2 * length ovs + 1) = Returns v ->
    meets_requirements v = true ->
    tail_spec ovs [draft_call (verdict_before None ovs (length ovs)); check_call o;
                   GenerateDocument (Some o) (Some v)]
| tail_skipped :
    ovs = [] -> (max_retries self <= 0)%Z ->
    tail_spec ovs [GenerateDocument None None].

Lemma trace_shape :
  exists ovs tail,
    answered 0 ovs /\ trace = (cycle_calls None ovs ++ tail)%list /\ tail_spec ovs tail.
Proof.
  pose proof run_sound as Hrun.
  inversion Hrun as [text l Hl | e l Hl | ov vv l d' Hl Hd' | ov vv l e Hl Hd'];
    inversion Hl; subst;
    first [ match goal with H : answered 0 ?l |- _ => exists l end
          | exists (@nil Attempt) ];
    try rewrite final_attempt_before; cbn [verdict_of option_map Nat.add] in *.
  - exists []. rewrite app_nil_r. repeat split; auto. constructor.
  - eexists. repeat split; eauto. constructor.
  - eexists. repeat split; eauto. constructor. assumption.
  - exists [GenerateDocument None None]. repeat split; auto. now constructor.
  - eexists. rewrite <- app_assoc. cbn [app]. repeat split; eauto.
    constructor; auto. same_answer.
  - exists [GenerateDocument None None]. repeat split; auto. now constructor.
  - eexists. rewrite <- app_assoc. cbn [app]. repeat split; eauto.
    constructor; auto. same_answer.
Qed.

(** What stands before a call of the trace [l] at position [idx]. *)
Definition justified (l : list Call) (idx : nat) (c : Call) : Prop :=
  match c with
  | CreateOutline t' r' fb =>
      t' = topic /\ r' = requirements /\
      exists i, idx = 2 * i /\
        match i with
        | 0 => fb = ""
        | S j => exists o v,
            nth_error l (2 * j + 1) = Some (ValidateOutline o criteria) /\
            criteria_reply P (2 * j + 1) = Returns v /\
            meets_requirements v = false /\
            fb = feedback_of (Some v)
        end
  | ValidateOutline o c' =>
      c' = criteria /\
      exists i fb, idx = 2 * i + 1 /\
        nth_error l (2 * i) = Some (CreateOutline topic requirements fb) /\
        outline_reply P (2 * i) = Returns o
  | GenerateDocument ov vv =>
      S idx = length l /\
      ((idx = 0 /\ ov = None /\ vv = None /\ (max_retries self <= 0)%Z) \/
       exists i o v, idx = 2 * i + 2 /\
         nth_error l (2 * i + 1) = Some (ValidateOutline o criteria) /\
         outline_reply P (2 * i) = Returns o /\
         criteria_reply P (2 * i + 1) = Returns v /\
         meets_requirements v = true /\ ov = Some o /\ vv = Some v)
  end.

Lemma draft_justified ovs tail i :
  answered 0 ovs -> i <= length ovs ->
  justified (cycle_calls None ovs ++ tail)%list (2 * i)
            (draft_call (verdict_before None ovs i)).
Proof.
  intros Ha Hi. cbn [justified draft_call]. repeat split; auto.
  exists i. split; [reflexivity|].
  destruct i as [|j]; [reflexivity|].
  destruct (nth_error_defined ovs j) as [[o v] Hn]; [lia|].
  destruct (answered_nth _ _ _ _ _ Ha Hn) as (_ & Hv & Hm).
  exists o, v. cbn [verdict_before]. rewrite Hn. cbn [option_map snd].
  repeat split; auto.
  - rewrite nth_error_app1 by (rewrite cycle_calls_length; lia).
    replace (2 * j + 1) with (S (2 * j)) by lia.
    now apply cycle_calls_check with (v := v).
  - same_answer.
Qed.

Lemma check_justified l i fb o :
  nth_error l (2 * i) = Some (CreateOutline topic requirements fb) ->
  outline_reply P (2 * i) = Returns o ->
  justified l (2 * i + 1) (check_call o).
Proof.
  intros Hn Ho. cbn [justified check_call]. split; [reflexivity|].
  now exists i, fb.
Qed.

Lemma trace_justified idx c :
  nth_error trace idx = Some c -> justified trace idx c.
Proof.
  destruct trace_shape as (ovs & tail & Ha & -> & Htail).
  intros Hn.
  assert (Hdraft : forall i, i <= length ovs ->
            justified (cycle_calls None ovs ++ tail)%list (2 * i)
                      (draft_call (verdict_before None ovs i)))
    by (intros; now apply draft_justified).
  destruct (Nat.lt_ge_cases idx (2 * length ovs)) as [Hlt|Hge].
  - (* among the rejected attempts *)
    pose proof Hn as Hn'.
    rewrite nth_error_app1 in Hn by (rewrite cycle_calls_length; lia).
    destruct (Nat.Even_or_Odd idx) as [[i ->]|[i ->]].
    + rewrite cycle_calls_draft in Hn by lia. injection Hn as <-.
      apply Hdraft. lia.
    + destruct (nth_error_defined ovs i) as [[o v] Ho]; [lia|].
      replace (2 * i + 1) with (S (2 * i)) in Hn by lia.
      rewrite (cycle_calls_check _ _ _ _ _ Ho) in Hn. injection Hn as <-.
      destruct (answered_nth _ _ _ _ _ Ha Ho) as (Hout & _ & _).
      eapply check_justified; [|exact Hout].
      rewrite nth_error_app1 by (rewrite cycle_calls_length; lia).
      apply cycle_calls_draft. lia.
  - (* in the tail *)
    pose proof Hn as Hn'.
    rewrite nth_error_app2 in Hn by (rewrite cycle_calls_length; lia).
    rewrite cycle_calls_length in Hn.
    assert (Hfirst : nth_error (cycle_calls None ovs ++ tail)%list (2 * length ovs)
                     = nth_error tail 0).
    { rewrite nth_error_app2 by (rewrite cycle_calls_length; lia).
      rewrite cycle_calls_length. now rewrite Nat.sub_diag. }
    assert (Hsecond : nth_error (cycle_calls None ovs ++ tail)%list (2 * length ovs + 1)
                      = nth_error tail 1).
    { rewrite nth_error_app2 by (rewrite cycle_calls_length; lia).
      rewrite cycle_calls_length. f_equal. lia. }
    remember (idx - 2 * length ovs) as r eqn:Hr.
    inversion Htail; subst tail.
    + destruct r; discriminate.
    + destruct r as [|r]; [|destruct r; discriminate].
      injection Hn as <-. replace idx with (2 * length ovs) by lia. now apply Hdraft.
    + destruct r as [|[|r]]; [| |destruct r; discriminate]; injection Hn as <-.
      * replace idx with (2 * length ovs) by lia. now apply Hdraft.
      * replace idx with (2 * length ovs + 1) by lia.
        eapply check_justified; [|eassumption]. rewrite Hfirst. reflexivity.
    + destruct r as [|[|[|r]]]; [| | |destruct r; discriminate]; injection Hn as <-.
      * replace idx with (2 * length ovs) by lia. now apply Hdraft.
      * replace idx with (2 * length ovs + 1) by lia.
        eapply check_justified; [|eassumption]. rewrite Hfirst. reflexivity.
      * cbn [justified]. split.
        { rewrite length_app, cycle_calls_length. cbn [length]. lia. }
        right. exists (length ovs), o, v. rewrite Hsecond.
        repeat split; auto. lia.
    + destruct r as [|r]; [|destruct r; discriminate]. injection Hn as <-.
      match goal with H : ovs = [] |- _ => subst ovs end.
      cbn [length] in *. cbn [justified]. split; [cbn; lia|].
      left. repeat split; auto. lia.
Qed.

(** ** A failing call *)

(** The port answers call number [idx], of the kind of [c], with the
    exception [e]. *)
Definition answer_fails (idx : nat) (c : Call) (e : PyException) : Prop :=
  match c with
  | CreateOutline _ _ _ => outline_reply P idx = Fails e
  | ValidateOutline _ _ => criteria_reply P idx = Fails e
  | GenerateDocument _ _ => document_reply P idx = Fails e
  end.



End Workflow.

(** ** Two ports that answer alike *)

(** The two ports give the same answer to call number [idx], of the
    kind of [c]. *)
Definition same_answer_to (P1 P2 : GenerationPort) (idx : nat) (c : Call) : Prop :=
  match c with
  | CreateOutline _ _ _ => outline_reply P1 idx = outline_reply P2 idx
  | ValidateOutline _ _ => criteria_reply P1 idx = criteria_reply P2 idx
  | GenerateDocument _ _ => document_reply P1 idx = document_reply P2 idx
  end.

(** The two ports give the same answers to the calls of [l], from call
    number [from] on. *)
Definition same_answers_from (P1 P2 : GenerationPort) (from : nat) (l : list Call) : Prop :=
  forall idx c, from <= idx -> nth_error l idx = Some c -> same_answer_to P1 P2 idx c.

Definition same_answers (P1 P2 : GenerationPort) (l : list Call) : Prop :=
  same_answers_from P1 P2 0 l.

(** The loop only ever adds calls. *)
Lemma while_loop_extends self P topic requirements criteria fuel :
  forall attempt outline validation w,
    exists l,
      calls (snd (while_loop fuel self P topic requirements criteria
                             attempt outline validation w))
      = (calls w ++ l)%list.
Proof.
  induction fuel as [|fuel IH]; intros attempt outline validation w.
  - exists []. rewrite app_nil_r. cbn [while_loop].
    destruct (attempt <? max_retries self)%Z; reflexivity.
  - rewrite while_loop_step.
    destruct (attempt <? max_retries self)%Z; [|exists []; now rewrite app_nil_r].
    destruct (outline_reply P (length (calls w))) as [o|e]; [|eexists; reflexivity].
    destruct (criteria_reply P (S (length (calls w)))) as [v|e]; [|eexists; reflexivity].
    cbv zeta.
    destruct (meets_requirements v); [eexists; reflexivity|].
    destruct (attempt + 1 =? max_retries self)%Z; [eexists; reflexivity|].
    match goal with |- context [while_loop fuel self P _ _ _ ?a ?ov ?vv ?w'] =>
      destruct (IH a ov vv w') as [l Hl] end.
    rewrite Hl. cbn [calls]. rewrite <- app_assoc. eexists; reflexivity.
Qed.

Lemma nth_error_after {A} (l : list A) (x : A) (rest : list A) :
  nth_error (l ++ x :: rest) (length l) = Some x.
Proof. rewrite nth_error_app2 by lia. now rewrite Nat.sub_diag. Qed.

Lemma nth_error_after2 {A} (l : list A) (x y : A) (rest : list A) :
  nth_error (l ++ x :: y :: rest) (S (length l)) = Some y.
Proof.
  rewrite nth_error_app2 by lia.
  replace (S (length l) - length l) with 1 by lia. reflexivity.
Qed.

Lemma while_loop_agree self P1 P2 topic requirements criteria fuel :
  forall attempt outline validation w,
    same_answers_from P1 P2 (length (calls w))
      (calls (snd (while_loop fuel self P1 topic requirements criteria
                              attempt outline validation w))) ->
    while_loop fuel self P1 topic requirements criteria attempt outline validation w
    = while_loop fuel self P2 topic requirements criteria attempt outline validation w.
Proof.
  induction fuel as [|fuel IH]; intros attempt outline validation w Hagree; [reflexivity|].
  rewrite while_loop_step in Hagree. rewrite !while_loop_step.
  destruct (attempt <? max_retries self)%Z; [|reflexivity].
  destruct (outline_reply P1 (length (calls w))) as [o|e] eqn:Ho.
  2:{ cbn [snd calls] in Hagree.
      pose proof (Hagree _ _ (Nat.le_refl _) (nth_error_after _ _ _)) as E.
      cbn [same_answer_to draft_call] in E. rewrite <- E, Ho. reflexivity. }
  destruct (criteria_reply P1 (S (length (calls w)))) as [v|e] eqn:Hv.
  2:{ cbn [snd calls] in Hagree.
      pose proof (Hagree _ _ (Nat.le_refl _) (nth_error_after _ _ _)) as E.
      pose proof (Hagree _ _ (Nat.le_succ_diag_r _) (nth_error_after2 _ _ _ _)) as E'.
      cbn [same_answer_to draft_call check_call] in E, E'.
      rewrite <- E, Ho, <- E', Hv. reflexivity. }
  cbv zeta in Hagree |- *.
  match type of Hagree with
  | same_answers_from _ _ _ ?final =>
      assert (Hshape : exists rest,
                 final = (calls w ++ draft_call topic requirements validation
                                  :: check_call criteria o :: rest)%list)
  end.
  { destruct (meets_requirements v); [now exists []|].
    destruct (attempt + 1 =? max_retries self)%Z; [now exists []|].
    match goal with |- context [while_loop fuel self P1 _ _ _ ?a ?ov ?vv ?w'] =>
      destruct (while_loop_extends self P1 topic requirements criteria fuel a ov vv w')
        as [l Hl] end.
    rewrite Hl. cbn [calls]. rewrite <- app_assoc. now exists l. }
  destruct Hshape as [rest Hshape].
  assert (E : same_answer_to P1 P2 (length (calls w))
                (draft_call topic requirements validation)).
  { apply Hagree; [lia|]. rewrite Hshape. apply nth_error_after. }
  assert (E' : same_answer_to P1 P2 (S (length (calls w))) (check_call criteria o)).
  { apply Hagree; [lia|]. rewrite Hshape. apply nth_error_after2. }
  cbn [same_answer_to draft_call check_call] in E, E'.
  rewrite <- E, Ho, <- E', Hv.
  destruct (meets_requirements v); [reflexivity|].
  destruct (attempt + 1 =? max_retries self)%Z; [reflexivity|].
  apply IH. intros idx c Hidx Hn. apply Hagree; [|exact Hn].
  cbn [calls] in Hidx. rewrite length_app in Hidx. lia.
Qed.

Lemma execution_agree self P1 P2 topic requirements criteria :
  same_answers P1 P2 (trace self P1 topic requirements criteria) ->
  execution self P1 topic requirements criteria
  = execution self P2 topic requirements criteria.
Proof.
  unfold same_answers, trace, execution, run, try_except, bind.
  intros Hagree.
  destruct (while_loop_extends self P1 topic requirements criteria
              (Z.to_nat (max_retries self)) 0%Z None None fresh) as [l Hl].
  cbn [fresh calls app] in Hl.
  rewrite <- (while_loop_agree self P1 P2).
  - destruct (while_loop _ self P1 topic requirements criteria 0%Z None None fresh)
      as [[[outline validation|text]|e|] w1]; try reflexivity.
    unfold print, generate_document, generation, ret, raise in *. cbn [calls stdout] in *.
    assert (E : same_answer_to P1 P2 (length (calls w1))
                  (GenerateDocument outline validation)).
    { apply Hagree; [lia|].
      destruct (document_reply P1 (length (calls w1))) as [d|e];
        [|destruct (is_exception e)]; cbn [snd calls]; apply nth_error_after. }
    cbn [same_answer_to] in E. now rewrite <- E.
  - intros idx c _ Hn. apply Hagree; [lia|].
    destruct (while_loop _ self P1 topic requirements criteria 0%Z None None fresh)
      as [[[outline validation|text]|e|] w1]; cbn [snd] in *; try exact Hn.
    + unfold print, generate_document, generation, ret, raise. cbn [calls stdout].
      assert (Hlt : idx < length (calls w1)) by (apply nth_error_Some; congruence).
      destruct (document_reply P1 (length (calls w1))) as [d|e];
        [|destruct (is_exception e)];
        cbn [snd calls]; rewrite nth_error_app1 by exact Hlt; exact Hn.
    + unfold print, raise. destruct (is_exception e); exact Hn.
Qed.

(** ** Counting, by position *)



(** ** The agent is read for its budget only *)

Lemma while_loop_budget self1 self2 P topic requirements criteria fuel :
  max_retries self1 = max_retries self2 ->
  forall attempt outline validation w,
    while_loop fuel self1 P topic requirements criteria attempt outline validation w
    = while_loop fuel self2 P topic requirements criteria attempt outline validation w.
Proof.
  intros Hmax.
  induction fuel as [|fuel IH]; intros attempt outline validation w.
  - cbn [while_loop]. now rewrite Hmax.
  - rewrite !while_loop_step. unfold notice_exhausted. rewrite Hmax.
    destruct (attempt <? max_retries self2)%Z; [|reflexivity].
    destruct (outline_reply P (length (calls w))); [|reflexivity].
    destruct (criteria_reply P (S (length (calls w)))); [|reflexivity].
    cbv zeta. destruct (meets_requirements a0); [reflexivity|].
    destruct (attempt + 1 =? max_retries self2)%Z; [reflexivity|].
    apply IH.
Qed.

Lemma execution_budget self1 self2 P topic requirements criteria :
  max_retries self1 = max_retries self2 ->
  execution self1 P topic requirements criteria
  = execution self2 P topic requirements criteria.
Proof.
  intros Hmax. unfold execution, run.
  rewrite Hmax. unfold try_except, bind.
  now rewrite (while_loop_budget self1 self2 P topic requirements criteria _ Hmax).
Qed.

(** The text of [create_outline] before any feedback clause. *)
Definition draft_preamble (topic requirements : string) : string :=
  "Create a structured document outline for: " ++ topic ++ nl
  ++ spaces 20 ++ "Requirements: " ++ requirements ++ nl
  ++ spaces 20.

(** The text of [generate_document] before any suggestion clause. *)
Definition document_preamble (outline : option (list OutlineSection)) : string :=
  "Write a complete document following this outline:" ++ nl
  ++ spaces 18 ++ str_opt_outline outline ++ nl
  ++ spaces 18 ++ nl
  ++ spaces 18 ++ "Ensure each section addresses all key points listed.".

(** The feedback text as the claim words it: the elements of the two
    fields, joined with newlines. *)
Definition spec_feedback (v : OutlineCriteria) : string :=
  join nl (missing_elements v ++ suggestions v)%list.

(** ** The error notice *)

(** A printed line that starts like the notice of the handler of [run]. *)
Definition is_error_notice (line : string) : bool :=
  prefix "Error in workflow: " line.

Lemma error_notice_recognised (e : PyException) :
  is_error_notice ("Error in workflow: " ++ exc_message e) = true.
Proof.
  unfold is_error_notice. cbn.
  repeat (destruct (ascii_dec _ _) as [_|N]; [|now elim N]).
  destruct (exc_message e); reflexivity.
Qed.

(** The progress lines of the loop are no error notices. *)
Lemma while_loop_quiet self P topic requirements criteria fuel :
  forall attempt outline validation w,
    filter is_error_notice
      (stdout (snd (while_loop fuel self P topic requirements criteria
                               attempt outline validation w)))
    = filter is_error_notice (stdout w).
Proof.
  induction fuel as [|fuel IH]; intros attempt outline validation w.
  - cbn [while_loop]. destruct (attempt <? max_retries self)%Z; reflexivity.
  - rewrite while_loop_step.
    assert (Ha : is_error_notice (notice_attempt attempt) = false) by reflexivity.
    assert (Ho : forall o, is_error_notice (notice_outline attempt o) = false).
    { intros o. unfold notice_outline. destruct (attempt =? 0)%Z; reflexivity. }
    assert (Hv : forall v, is_error_notice (notice_validation v) = false)
      by reflexivity.
    destruct (attempt <? max_retries self)%Z; [|reflexivity].
    destruct (outline_reply P (length (calls w))) as [o|e].
    2:{ cbn [snd stdout]. rewrite filter_app. cbn [filter]. rewrite Ha.
        now rewrite app_nil_r. }
    destruct (criteria_reply P (S (length (calls w)))) as [v|e].
    2:{ cbn [snd stdout]. rewrite filter_app. cbn [filter]. rewrite Ha, Ho.
        cbn. now rewrite app_nil_r. }
    cbv zeta.
    assert (Hout : filter is_error_notice
                     (stdout w ++ [notice_attempt attempt; notice_outline attempt o;
                                   "Validating outline..."; notice_validation v])%list
                   = filter is_error_notice (stdout w)).
    { rewrite filter_app. cbn [filter]. rewrite Ha, Ho, Hv. cbn.
      now rewrite app_nil_r. }
    destruct (meets_requirements v).
    { cbn [snd stdout]. rewrite filter_app, Hout. cbn. now rewrite app_nil_r. }
    destruct (attempt + 1 =? max_retries self)%Z.
    { cbn [snd stdout]. rewrite filter_app, Hout. cbn. now rewrite app_nil_r. }
    rewrite IH. cbn [stdout]. exact Hout.
Qed.

(** An exception that is no instance of [Exception] leaves [run] with
    no error notice printed. *)
Lemma raise_unannounced self P topic requirements criteria e :
  result self P topic requirements criteria = Raise e ->
  is_exception e = false ->
  filter is_error_notice (printed self P topic requirements criteria) = [].
Proof.
  unfold result, printed, execution, run, try_except, bind.
  pose proof (while_loop_quiet self P topic requirements criteria
                (Z.to_nat (max_retries self)) 0%Z None None fresh) as Hq.
  destruct (while_loop _ self P topic requirements criteria 0%Z None None fresh)
    as [[[outline validation|text]|e'|] w1]; cbn [snd fresh stdout filter] in Hq.
  - unfold print, generate_document, generation, ret, raise. cbn [calls stdout].
    destruct (document_reply P (length (calls w1))) as [d|e']; [discriminate|].
    destruct (is_exception e') eqn:He'; cbn [fst snd stdout]; intros E Hexc;
      injection E as ->; [congruence|].
    rewrite filter_app, Hq. reflexivity.
  - discriminate.
  - unfold print, raise.
    destruct (is_exception e') eqn:He'; cbn [fst snd stdout]; intros E Hexc;
      injection E as ->; [congruence | exact Hq].
  - discriminate.
Qed.

(** * The claims *)

Import Scenario.

(** C1 (acceptance termination). The port answers the attempts [0..k]
    with outlines [o i] and verdicts [v i]; the verdicts before attempt
    [k] reject, the one of attempt [k] accepts, [k < max_retries], and
    the document call that follows returns [d]. Then [run] ends and
    returns the content of [d], after exactly [k+1] draft calls, [k+1]
    validation calls and one document call, which is the last call and
    gets the outline and verdict of attempt [k]. The last permitted
    attempt, [k = max_retries - 1], is included. *)
Theorem acceptance_termination
    (self : DocumentWorkflowAgent) (P : GenerationPort)
    (topic requirements criteria : string)
    (k : nat) (o : nat -> list OutlineSection) (v : nat -> OutlineCriteria)
    (d : DocumentContent) :
  (Z.of_nat k < max_retries self)%Z ->
  (forall i, i <= k -> outline_reply P (2 * i) = Returns (o i)) ->
  (forall i, i <= k -> criteria_reply P (2 * i + 1) = Returns (v i)) ->
  (forall i, i < k -> meets_requirements (v i) = false) ->
  meets_requirements (v k) = true ->
  document_reply P (2 * k + 2) = Returns d ->
  let calls_made := trace self P topic requirements criteria in
  result self P topic requirements criteria = Ok (content d) /\
  count is_draft calls_made = k + 1 /\
  count is_check calls_made = k + 1 /\
  count is_generate calls_made = 1 /\
  length calls_made = 2 * (k + 1) + 1 /\
  nth_error calls_made (2 * (k + 1))
  = Some (GenerateDocument (Some (o k)) (Some (v k))).
Proof.
  intros Hk Ho Hv Hrej Hacc Hd calls_made. subst calls_made.
  destruct (accepted_run self P topic requirements criteria k o v d Hk Ho Hv Hrej Hacc Hd)
    as (ovs & Hlen & _ & Hres & Htrace).
  rewrite Htrace, Hres.
  destruct (count_cycle_calls topic requirements criteria None ovs) as (Cd & Cc & Cg).
  rewrite !count_app, Cd, Cc, Cg, length_app, cycle_calls_length, Hlen.
  repeat split; try (cbn; lia).
  rewrite nth_error_app2 by (rewrite cycle_calls_length; lia).
  rewrite cycle_calls_length, Hlen.
  replace (2 * (k + 1) - 2 * k) with 2 by lia. reflexivity.
Qed.

Lemma acceptance_termination_witness :
  let calls_made := trace (agent 2) accepting topic requirements criteria in
  result (agent 2) accepting topic requirements criteria = Ok (content D) /\
  count is_draft calls_made = 2 /\
  count is_check calls_made = 2 /\
  count is_generate calls_made = 1 /\
  length calls_made = 5 /\
  nth_error calls_made 4 = Some (GenerateDocument (Some O1) (Some V1)).
Proof.
  apply (acceptance_termination (agent 2) accepting topic requirements criteria
           1 (fun i => nth i [O0; O1] []) (fun i => nth i [V0; V1] V0) D).
  - reflexivity.
  - intros [|[|i]] Hi; [reflexivity | reflexivity | lia].
  - intros [|[|i]] Hi; [reflexivity | reflexivity | lia].
  - intros [|i] Hi; [reflexivity | lia].
  - reflexivity.
  - reflexivity.
Defined.

(** C2 (budget exhaustion). With [max_retries >= 1], when the port
    answers every one of the [max_retries] attempts with an outline and
    a rejecting verdict, [run] makes exactly [max_retries] draft calls
    and [max_retries] validation calls, no document call, and returns
    the failure text, in which the last verdict is rendered: the text
    holds the rendering of its [missing_elements] and of its
    [suggestions], and with them every plain element of the two lists
    as it is. *)
Theorem budget_exhaustion
    (self : DocumentWorkflowAgent) (P : GenerationPort)
    (topic requirements criteria : string)
    (o : nat -> list OutlineSection) (v : nat -> OutlineCriteria) :
  (1 <= max_retries self)%Z ->
  (forall i, (Z.of_nat i < max_retries self)%Z -> outline_reply P (2 * i) = Returns (o i)) ->
  (forall i, (Z.of_nat i < max_retries self)%Z -> criteria_reply P (2 * i + 1) = Returns (v i)) ->
  (forall i, (Z.of_nat i < max_retries self)%Z -> meets_requirements (v i) = false) ->
  let n := Z.to_nat (max_retries self) in
  let final := v (n - 1) in
  let text := "Failed to create satisfactory outline. Last validation: "
              ++ str_criteria final in
  let calls_made := trace self P topic requirements criteria in
  result self P topic requirements criteria = Ok text /\
  count is_draft calls_made = n /\
  count is_check calls_made = n /\
  count is_generate calls_made = 0 /\
  contains (str_list (missing_elements final)) text /\
  contains (str_list (suggestions final)) text /\
  (forall s,
      In s (missing_elements final) \/ In s (suggestions final) ->
      plain s = true -> contains s text).
Proof.
  intros Hmax Ho Hv Hrej n final text calls_made. subst n final text calls_made.
  destruct (exhausted_run self P topic requirements criteria o v Hmax Ho Hv Hrej)
    as (ovs & Hlen & _ & Hres & Htrace).
  replace (Z.to_nat (max_retries self)) with (length ovs) by lia.
  rewrite Htrace, Hres.
  destruct (count_cycle_calls topic requirements criteria None ovs) as (Cd & Cc & Cg).
  set (final := v (length ovs - 1)).
  assert (Hm : contains (str_list (missing_elements final))
                 ("Failed to create satisfactory outline. Last validation: "
                  ++ str_criteria final)).
  { unfold str_criteria. do 4 apply contains_app_r. apply contains_here. }
  assert (Hs : contains (str_list (suggestions final))
                 ("Failed to create satisfactory outline. Last validation: "
                  ++ str_criteria final)).
  { unfold str_criteria. do 6 apply contains_app_r. apply contains_refl. }
  repeat split; auto.
  intros s [Hin|Hin] Hplain.
  - eapply contains_trans; [|exact Hm]. now apply str_list_contains_plain.
  - eapply contains_trans; [|exact Hs]. now apply str_list_contains_plain.
Qed.

Lemma budget_exhaustion_witness :
  let calls_made := trace (agent 2) rejecting topic requirements criteria in
  let text := "Failed to create satisfactory outline. Last validation: "
              ++ str_criteria V0 in
  result (agent 2) rejecting topic requirements criteria = Ok text /\
  count is_draft calls_made = 2 /\
  count is_check calls_made = 2 /\
  count is_generate calls_made = 0 /\
  contains (str_list (missing_elements V0)) text /\
  contains (str_list (suggestions V0)) text /\
  (forall s,
      In s (missing_elements V0) \/ In s (suggestions V0) ->
      plain s = true -> contains s text).
Proof.
  apply (budget_exhaustion (agent 2) rejecting topic requirements criteria
           (fun _ => O0) (fun _ => V0)).
  - cbn. lia.
  - reflexivity.
  - reflexivity.
  - reflexivity.
Defined.




(** C4, as stated, fails: in the run where attempt 0 is rejected with
    missing elements [examples] and suggestions [add case study], the
    feedback given to the draft call of attempt 1 is the text
    ['examples'], a newline, ['add case study'] (the two lists as
    Python prints them), not the elements joined with newlines. With one
    element in each field every way of joining the elements gives the
    same text, so no choice of separator inside a field saves the
    claim. *)
Lemma feedback_join_counterexample :
  criteria_reply accepting 1 = Returns V0 /\
  nth_error (trace (agent 2) accepting topic requirements criteria) 2
  = Some (CreateOutline topic requirements
            ("['examples']" ++ nl ++ "['add case study']")) /\
  spec_feedback V0 = "examples" ++ nl ++ "add case study" /\
  "['examples']" ++ nl ++ "['add case study']" <> spec_feedback V0.
Proof.
  repeat split; try reflexivity.
  vm_compute. discriminate.
Qed.

(** C4, amended. For every draft call of a run after the first one, the
    call before it is the validation call of the previous attempt, and
    the feedback equals the rendering of the [missing_elements] list of
    the verdict returned there (brackets, the elements quoted and
    escaped as by [repr], separated by a comma and a space), one
    newline, and the same rendering of its [suggestions] list. *)
Theorem feedback_is_rendered_verdict
    (self : DocumentWorkflowAgent) (P : GenerationPort)
    (topic requirements criteria : string) :
  forall idx t r fb,
    nth_error (trace self P topic requirements criteria) idx
    = Some (CreateOutline t r fb) ->
    idx <> 0 ->
    exists i o v,
      idx = 2 * (i + 1) /\
      nth_error (trace self P topic requirements criteria) (2 * i + 1)
      = Some (ValidateOutline o criteria) /\
      criteria_reply P (2 * i + 1) = Returns v /\
      fb = str_list (missing_elements v) ++ nl ++ str_list (suggestions v).
Proof.
  intros idx t r fb Hn Hidx.
  apply trace_justified in Hn. cbn [justified] in Hn.
  destruct Hn as (_ & _ & [|j] & -> & Hfb); [lia|].
  destruct Hfb as (o & v & Hc & Hv & _ & ->).
  exists j, o, v. repeat split; auto. lia.
Qed.

Lemma feedback_is_rendered_verdict_witness :
  exists i o v,
    2 = 2 * (i + 1) /\
    nth_error (trace (agent 2) accepting topic requirements criteria) (2 * i + 1)
    = Some (ValidateOutline o criteria) /\
    criteria_reply accepting (2 * i + 1) = Returns v /\
    feedback_of (Some V0)
    = str_list (missing_elements v) ++ nl ++ str_list (suggestions v).
Proof.
  apply (feedback_is_rendered_verdict (agent 2) accepting topic requirements criteria
           2 topic requirements (feedback_of (Some V0))).
  - reflexivity.
  - discriminate.
Defined.

(** C5 (feedback threading). In every run, the instructions of the
    first draft call are the bare text of [create_outline], with no
    feedback clause appended; the instructions of every later draft
    call are that text followed by the clause "Previous feedback to
    address: " and the feedback made from the verdict of the attempt
    before, so they hold the rendering of its [missing_elements] and of
    its [suggestions], and with them every plain element of the two
    lists as it is. *)
Theorem feedback_threading
    (self : DocumentWorkflowAgent) (P : GenerationPort)
    (topic requirements criteria : string) :
  forall idx call,
    nth_error (trace self P topic requirements criteria) idx = Some call ->
    is_draft call = true ->
    (idx = 0 -> instructions call = draft_preamble topic requirements) /\
    (idx <> 0 ->
     exists i v,
       idx = 2 * (i + 1) /\
       criteria_reply P (2 * i + 1) = Returns v /\
       instructions call
       = draft_preamble topic requirements ++ nl
         ++ "Previous feedback to address: " ++ feedback_of (Some v) /\
       contains (str_list (missing_elements v)) (instructions call) /\
       contains (str_list (suggestions v)) (instructions call) /\
       (forall s,
           In s (missing_elements v) \/ In s (suggestions v) ->
           plain s = true -> contains s (instructions call))).
Proof.
  intros idx [t r fb|o c|outline validation] Hn Hk; try discriminate.
  apply trace_justified in Hn. cbn [justified] in Hn.
  destruct Hn as (-> & -> & [|j] & -> & Hfb).
  - subst fb. split; [reflexivity | lia].
  - destruct Hfb as (o & v & _ & Hv & _ & ->).
    split; [lia|]. intros _. exists j, v.
    assert (E : instructions (CreateOutline topic requirements (feedback_of (Some v)))
                = draft_preamble topic requirements ++ nl
                  ++ "Previous feedback to address: " ++ feedback_of (Some v)).
    { cbn [instructions]. unfold create_outline_prompt.
      rewrite feedback_truthy. unfold draft_preamble.
      now rewrite !append_assoc. }
    rewrite E.
    assert (Hm : contains (str_list (missing_elements v))
                   (draft_preamble topic requirements ++ nl
                    ++ "Previous feedback to address: " ++ feedback_of (Some v))).
    { unfold feedback_of. do 3 apply contains_app_r. apply contains_here. }
    assert (Hs : contains (str_list (suggestions v))
                   (draft_preamble topic requirements ++ nl
                    ++ "Previous feedback to address: " ++ feedback_of (Some v))).
    { unfold feedback_of. do 5 apply contains_app_r. apply contains_refl. }
    repeat split; auto; try lia.
    intros s [Hin|Hin] Hplain.
    + eapply contains_trans; [|exact Hm]. now apply str_list_contains_plain.
    + eapply contains_trans; [|exact Hs]. now apply str_list_contains_plain.
Qed.

Lemma feedback_threading_witness :
  instructions (CreateOutline topic requirements "") = draft_preamble topic requirements /\
  exists i v,
    2 = 2 * (i + 1) /\
    criteria_reply accepting (2 * i + 1) = Returns v /\
    instructions (CreateOutline topic requirements (feedback_of (Some V0)))
    = draft_preamble topic requirements ++ nl
      ++ "Previous feedback to address: " ++ feedback_of (Some v) /\
    contains (str_list (missing_elements v))
             (instructions (CreateOutline topic requirements (feedback_of (Some V0)))) /\
    contains (str_list (suggestions v))
             (instructions (CreateOutline topic requirements (feedback_of (Some V0)))) /\
    (forall s,
        In s (missing_elements v) \/ In s (suggestions v) ->
        plain s = true ->
        contains s (instructions (CreateOutline topic requirements (feedback_of (Some V0))))).
Proof.
  split.
  - apply (feedback_threading (agent 2) accepting topic requirements criteria
             0 (CreateOutline topic requirements "")); reflexivity.
  - apply (feedback_threading (agent 2) accepting topic requirements criteria
             2 (CreateOutline topic requirements (feedback_of (Some V0))));
      [reflexivity | reflexivity | discriminate].
Defined.

(** C8 (no outline mutation across attempts). In every run, a
    validation call is call number [2i+1] for some attempt [i], the call
    before it is the draft call of that attempt, and the outline it is
    given is exactly the value the port returned to that draft call; no
    earlier outline enters. *)
Theorem validated_outline_is_the_draft
    (self : DocumentWorkflowAgent) (P : GenerationPort)
    (topic requirements criteria : string) :
  forall idx o c,
    nth_error (trace self P topic requirements criteria) idx
    = Some (ValidateOutline o c) ->
    c = criteria /\
    exists i fb,
      idx = 2 * i + 1 /\
      nth_error (trace self P topic requirements criteria) (2 * i)
      = Some (CreateOutline topic requirements fb) /\
      outline_reply P (2 * i) = Returns o.
Proof.
  intros idx o c Hn. apply trace_justified in Hn. exact Hn.
Qed.

Lemma validated_outline_is_the_draft_witness :
  criteria = criteria /\
  exists i fb,
    3 = 2 * i + 1 /\
    nth_error (trace (agent 2) accepting topic requirements criteria) (2 * i)
    = Some (CreateOutline topic requirements fb) /\
    outline_reply accepting (2 * i) = Returns O1.
Proof.
  apply (validated_outline_is_the_draft (agent 2) accepting topic requirements criteria
           3 O1 criteria).
  reflexivity.
Defined.




(** C7 (the verdict steers the document through its suggestions only).
    In the accepting run of C1 the document call gets the outline and
    the verdict of the accepting attempt. Its instructions are the bare
    text of [generate_document] when the verdict has no suggestions, and
    otherwise that text followed by the clause "Please incorporate these
    suggestions:" and one "- suggestion" piece per suggestion, although
    the verdict accepts. A verdict with the same suggestions, whatever
    its [missing_elements] and [meets_requirements], gives the same
    instructions. *)
Theorem document_uses_suggestions_only
    (self : DocumentWorkflowAgent) (P : GenerationPort)
    (topic requirements criteria : string)
    (k : nat) (o : nat -> list OutlineSection) (v : nat -> OutlineCriteria)
    (d : DocumentContent) :
  (Z.of_nat k < max_retries self)%Z ->
  (forall i, i <= k -> outline_reply P (2 * i) = Returns (o i)) ->
  (forall i, i <= k -> criteria_reply P (2 * i + 1) = Returns (v i)) ->
  (forall i, i < k -> meets_requirements (v i) = false) ->
  meets_requirements (v k) = true ->
  document_reply P (2 * k + 2) = Returns d ->
  let call := GenerateDocument (Some (o k)) (Some (v k)) in
  nth_error (trace self P topic requirements criteria) (2 * (k + 1)) = Some call /\
  instructions call
  = (if nonempty (suggestions (v k))
     then document_preamble (Some (o k)) ++ nl
          ++ "Please incorporate these suggestions:" ++ nl
          ++ bullets (suggestions (v k))
     else document_preamble (Some (o k))) /\
  (forall s, In s (suggestions (v k)) -> contains ("- " ++ s) (instructions call)) /\
  (forall other,
      suggestions other = suggestions (v k) ->
      instructions (GenerateDocument (Some (o k)) (Some other)) = instructions call).
Proof.
  intros Hk Ho Hv Hrej Hacc Hd call. subst call.
  destruct (accepted_run self P topic requirements criteria k o v d Hk Ho Hv Hrej Hacc Hd)
    as (ovs & Hlen & _ & _ & Htrace).
  assert (E : forall verdict,
             instructions (GenerateDocument (Some (o k)) (Some verdict))
             = (if nonempty (suggestions verdict)
                then document_preamble (Some (o k)) ++ nl
                     ++ "Please incorporate these suggestions:" ++ nl
                     ++ bullets (suggestions verdict)
                else document_preamble (Some (o k)))).
  { intros verdict. cbn [instructions]. unfold generate_document_prompt.
    fold (document_preamble (Some (o k))).
    destruct (nonempty (suggestions verdict)); [|reflexivity].
    rewrite add_suggestions_bullets. now rewrite !append_assoc. }
  repeat split.
  - rewrite Htrace.
    rewrite nth_error_app2 by (rewrite cycle_calls_length; lia).
    rewrite cycle_calls_length, Hlen.
    replace (2 * (k + 1) - 2 * k) with 2 by lia. reflexivity.
  - apply E.
  - intros s Hin. rewrite E.
    destruct (suggestions (v k)) as [|x rest] eqn:Hs; [contradiction|].
    cbn [nonempty]. do 4 apply contains_app_r. now apply bullets_contains.
  - intros other Hsame. rewrite !E. now rewrite Hsame.
Qed.

Lemma document_uses_suggestions_only_witness :
  let call := GenerateDocument (Some O1) (Some V1) in
  nth_error (trace (agent 2) accepting topic requirements criteria) 4 = Some call /\
  instructions call
  = document_preamble (Some O1) ++ nl
    ++ "Please incorporate these suggestions:" ++ nl ++ "- keep it short" /\
  (forall s, In s (suggestions V1) -> contains ("- " ++ s) (instructions call)) /\
  (forall other,
      suggestions other = suggestions V1 ->
      instructions (GenerateDocument (Some O1) (Some other)) = instructions call).
Proof.
  apply (document_uses_suggestions_only (agent 2) accepting topic requirements criteria
           1 (fun i => nth i [O0; O1] []) (fun i => nth i [V0; V1] V0) D).
  - reflexivity.
  - intros [|[|i]] Hi; [reflexivity | reflexivity | lia].
  - intros [|[|i]] Hi; [reflexivity | reflexivity | lia].
  - intros [|i] Hi; [reflexivity | lia].
  - reflexivity.
  - reflexivity.
Defined.

(** C9 (a budget of zero). With [max_retries = 0] the loop body never
    runs: [run] makes no draft call and no validation call; its only
    call is the document call, with [None] for the outline and [None]
    for the verdict, and [run] returns the content of the document the
    port answers with (or raises what the port raises). *)
Theorem zero_budget_generates_directly
    (self : DocumentWorkflowAgent) (P : GenerationPort)
    (topic requirements criteria : string) :
  max_retries self = 0%Z ->
  trace self P topic requirements criteria = [GenerateDocument None None] /\
  count is_draft (trace self P topic requirements criteria) = 0 /\
  count is_check (trace self P topic requirements criteria) = 0 /\
  result self P topic requirements criteria
  = match document_reply P 0 with
    | Returns d => Ok (content d)
    | Fails e => Raise e
    end /\
  instructions (GenerateDocument None None)
  = "Write a complete document following this outline:" ++ nl
    ++ spaces 18 ++ "None" ++ nl
    ++ spaces 18 ++ nl
    ++ spaces 18 ++ "Ensure each section addresses all key points listed.".
Proof.
  intros Hmax.
  assert (Htrace : trace self P topic requirements criteria = [GenerateDocument None None]
                   /\ result self P topic requirements criteria
                      = match document_reply P 0 with
                        | Returns d => Ok (content d)
                        | Fails e => Raise e
                        end).
  { unfold trace, result, execution, run. rewrite Hmax.
    cbn [Z.to_nat while_loop]. rewrite Hmax.
    unfold try_except, bind, ret, print, generate_document, generation, raise.
    cbn [Z.ltb Z.compare fresh calls stdout length app].
    destruct (document_reply P 0) as [d|e]; [|destruct (is_exception e)];
      split; reflexivity. }
  destruct Htrace as [Htrace Hres].
  rewrite Htrace, Hres. repeat split; reflexivity.
Qed.

Lemma zero_budget_generates_directly_witness :
  trace (agent 0) rejecting topic requirements criteria = [GenerateDocument None None] /\
  count is_draft (trace (agent 0) rejecting topic requirements criteria) = 0 /\
  count is_check (trace (agent 0) rejecting topic requirements criteria) = 0 /\
  result (agent 0) rejecting topic requirements criteria = Ok (content D) /\
  instructions (GenerateDocument None None)
  = "Write a complete document following this outline:" ++ nl
    ++ spaces 18 ++ "None" ++ nl
    ++ spaces 18 ++ nl
    ++ spaces 18 ++ "Ensure each section addresses all key points listed.".
Proof.
  apply (zero_budget_generates_directly (agent 0) rejecting topic requirements criteria).
  reflexivity.
Defined.

(** C10 (determinism in the port). [run] reads nothing but its
    arguments, the budget of the agent and the answers to the calls it
    makes: two runs with the same topic, requirements, criteria and
    [max_retries], on ports that give the same answers to the calls the
    first run makes, make the same calls, return the same value and
    print the same lines. In particular two runs on the same sequence
    of answers do. *)
Theorem run_is_deterministic
    (self1 self2 : DocumentWorkflowAgent) (P1 P2 : GenerationPort)
    (topic requirements criteria : string) :
  max_retries self1 = max_retries self2 ->
  (forall idx call,
      nth_error (trace self1 P1 topic requirements criteria) idx = Some call ->
      same_answer_to P1 P2 idx call) ->
  trace self1 P1 topic requirements criteria = trace self2 P2 topic requirements criteria /\
  result self1 P1 topic requirements criteria = result self2 P2 topic requirements criteria /\
  printed self1 P1 topic requirements criteria = printed self2 P2 topic requirements criteria.
Proof.
  intros Hmax Hagree.
  assert (E : execution self1 P1 topic requirements criteria
              = execution self2 P2 topic requirements criteria).
  { rewrite (execution_agree self1 P1 P2 topic requirements criteria).
    - now apply execution_budget.
    - intros idx c _ Hn. now apply Hagree. }
  unfold trace, result, printed. now rewrite E.
Qed.

Lemma run_is_deterministic_witness :
  trace (mkAgent ["earlier message"] 2) accepting topic requirements criteria
  = trace (agent 2) accepting' topic requirements criteria /\
  result (mkAgent ["earlier message"] 2) accepting topic requirements criteria
  = result (agent 2) accepting' topic requirements criteria /\
  printed (mkAgent ["earlier message"] 2) accepting topic requirements criteria
  = printed (agent 2) accepting' topic requirements criteria.
Proof.
  apply (run_is_deterministic (mkAgent ["earlier message"] 2) (agent 2)
           accepting accepting' topic requirements criteria).
  - reflexivity.
  - intros [|[|[|[|[|idx]]]]] call Hn;
      vm_compute in Hn;
      try (injection Hn as <-; reflexivity);
      destruct idx; discriminate.
Defined.

(** * More on [run]: what holds of every run *)

(** Closes a goal on a port answer from a hypothesis giving the same
    answer at an index equal by arithmetic. *)
Ltac shifted_answer :=
  match goal with
  | H : ?f ?p ?i = ?r |- ?f ?p ?j = ?r => replace j with i by lia; exact H
  end.

Section EveryRun.

Variable self : DocumentWorkflowAgent.
Variable P : GenerationPort.
Variables topic requirements criteria : string.

Local Abbreviation the_result := (result self P topic requirements criteria).
Local Abbreviation the_trace := (trace self P topic requirements criteria).
Local Abbreviation the_printed := (printed self P topic requirements criteria).

Lemma raise_comes_from_port res tr :
  run_spec self P topic requirements criteria res tr ->
  forall e, res = Raise e ->
    exists idx call,
      S idx = length tr /\ nth_error tr idx = Some call /\ answer_fails P idx call e.
Proof.
  intros Hrun e ->.
  inversion Hrun as [text l Hl | e' l Hl | ov vv l d' Hl Hd' | ov vv l e' Hl Hd'];
    subst.
  - inversion Hl; subst.
    + exists (2 * length ovs), (draft_call topic requirements
                                  (verdict_of (final_attempt None ovs))).
      rewrite length_app, cycle_calls_length. cbn [length]. repeat split; [lia| |].
      * rewrite <- (cycle_calls_length topic requirements criteria None ovs).
        apply nth_error_after.
      * cbn [answer_fails draft_call]. shifted_answer.
    + exists (S (2 * length ovs)), (check_call criteria o).
      rewrite length_app, cycle_calls_length. cbn [length]. repeat split; [lia| |].
      * rewrite <- (cycle_calls_length topic requirements criteria None ovs).
        apply nth_error_after2.
      * cbn [answer_fails check_call]. shifted_answer.
  - exists (length l), (GenerateDocument ov vv).
    rewrite length_app. cbn [length]. repeat split; [lia| |].
    + apply nth_error_after.
    + exact Hd'.
Qed.

(** [run] raises nothing of its own: when it raises [e], the last call
    it made is a call the port answered with [e]. *)
Theorem run_raises_only_port_exceptions (e : PyException) :
  the_result = Raise e ->
  exists idx call,
    S idx = length the_trace /\
    nth_error the_trace idx = Some call /\
    answer_fails P idx call e.
Proof.
  apply raise_comes_from_port. apply run_sound.
Qed.

(** The text [run] returns is the content of the document the port
    returned to the last call, a document call, or else the failure
    text made from the rejecting verdict the port returned to the last
    call, a validation call, the one that used up the budget: the run
    then made [2 * max_retries] calls. *)
Theorem run_returns_document_or_failure (text : string) :
  the_result = Ok text ->
  (exists idx outline validation d,
      S idx = length the_trace /\
      nth_error the_trace idx = Some (GenerateDocument outline validation) /\
      document_reply P idx = Returns d /\
      text = content d) \/
  (exists idx o v,
      S idx = length the_trace /\
      nth_error the_trace idx = Some (ValidateOutline o criteria) /\
      criteria_reply P idx = Returns v /\
      meets_requirements v = false /\
      Z.of_nat (length the_trace) = (2 * max_retries self)%Z /\
      text = "Failed to create satisfactory outline. Last validation: "
             ++ str_criteria v).
Proof.
  intros Hres.
  pose proof (run_sound self P topic requirements criteria) as Hrun.
  rewrite Hres in Hrun.
  remember (trace self P topic requirements criteria) as tr eqn:Htr. clear Htr.
  inversion Hrun as [text' l Hl | e' l Hl | ov vv l d' Hl Hd' | ov vv l e' Hl Hd']; subst.
  - right. inversion Hl; subst.
    match goal with H : final_attempt None ovs = Some _ |- _ =>
      apply final_attempt_last in H; [|intros ->; discriminate]; rename H into Hlast end.
    assert (0 < length ovs).
    { destruct ovs; [destruct (0 - 1); discriminate | cbn; lia]. }
    match goal with H : answered P 0 ovs |- _ =>
      destruct (answered_nth P _ _ _ _ _ H Hlast) as (_ & Hv & Hm) end.
    exists (S (2 * (length ovs - 1))), o, v.
    rewrite cycle_calls_length.
    split; [lia|]. split; [now apply cycle_calls_check with (v := v)|].
    split; [shifted_answer|]. split; [exact Hm|]. split; [lia | reflexivity].
  - left. exists (length l), ov, vv, d'.
    rewrite length_app. cbn [length]. repeat split; auto; try lia.
    apply nth_error_after.
Qed.

Lemma run_spec_budget res tr :
  run_spec self P topic requirements criteria res tr ->
  count is_draft tr <= Z.to_nat (max_retries self) /\
  count is_check tr <= count is_draft tr /\
  count is_draft tr <= count is_check tr + 1 /\
  count is_generate tr <= 1 /\
  length tr <= 2 * Z.to_nat (max_retries self) + 1.
Proof.
  intros Hrun.
  inversion Hrun as [text' l Hl | e' l Hl | ov vv l d' Hl Hd' | ov vv l e' Hl Hd'];
    inversion Hl; subst; cbn [verdict_of option_map];
    rewrite ?count_app, ?length_app, ?cycle_calls_length;
    try (destruct (count_cycle_calls topic requirements criteria None ovs)
          as (Cd & Cc & Cg); rewrite Cd, Cc, Cg);
    cbn; lia.
Qed.


(** Every draft call of a run stands at an even position and passes on
    the caller's [topic] and [requirements] as they are; every
    validation call stands at an odd position and passes on the
    caller's [criteria]. *)
Theorem calls_carry_the_arguments (idx : nat) (call : Call) :
  nth_error the_trace idx = Some call ->
  match call with
  | CreateOutline t r _ => t = topic /\ r = requirements /\ Nat.even idx = true
  | ValidateOutline _ c => c = criteria /\ Nat.odd idx = true
  | GenerateDocument _ _ => True
  end.
Proof.
  intros Hn. apply trace_justified in Hn.
  destruct call as [t r fb|o c|outline validation]; cbn [justified] in Hn; [| |exact I].
  - destruct Hn as (-> & -> & i & -> & _). repeat split.
    rewrite Nat.even_mul. reflexivity.
  - destruct Hn as (-> & i & fb & -> & _). split; [reflexivity|].
    rewrite Nat.add_1_r, Nat.odd_succ, Nat.even_mul. reflexivity.
Qed.

End EveryRun.

(** [run] prints its error notice exactly when it raises an instance
    of [Exception]: once, as the last line, with the message of the
    exception raised. A run that returns prints none, and neither does
    a run that raises an exception outside [Exception]. *)
Theorem error_notice_iff_exception
    (self : DocumentWorkflowAgent) (P : GenerationPort)
    (topic requirements criteria : string) :
  match result self P topic requirements criteria with
  | Raise e =>
      if is_exception e then
        exists out,
          printed self P topic requirements criteria
          = (out ++ [("Error in workflow: " ++ exc_message e)%string])%list /\
          filter is_error_notice out = [] /\
          is_error_notice ("Error in workflow: " ++ exc_message e) = true
      else filter is_error_notice (printed self P topic requirements criteria) = []
  | _ => filter is_error_notice (printed self P topic requirements criteria) = []
  end.
Proof.
  unfold result, printed, execution, run, try_except, bind.
  pose proof (while_loop_quiet self P topic requirements criteria
                (Z.to_nat (max_retries self)) 0%Z None None fresh) as Hq.
  destruct (while_loop _ self P topic requirements criteria 0%Z None None fresh)
    as [[[outline validation|text]|e|] w1]; cbn [snd fresh stdout filter] in Hq.
  - unfold print, generate_document, generation, ret, raise. cbn [calls stdout].
    destruct (document_reply P (length (calls w1))) as [d|e]; cbn [fst snd stdout].
    + rewrite filter_app, Hq. reflexivity.
    + destruct (is_exception e) eqn:He; cbn [fst snd stdout]; rewrite He.
      * eexists. split; [reflexivity|]. split; [|apply error_notice_recognised].
        rewrite filter_app, Hq. reflexivity.
      * rewrite filter_app, Hq. reflexivity.
  - unfold ret. cbn [fst snd]. exact Hq.
  - unfold print, raise.
    destruct (is_exception e) eqn:He; cbn [fst snd stdout]; rewrite He.
    + eexists. split; [reflexivity|].
      split; [exact Hq | apply error_notice_recognised].
    + exact Hq.
  - cbn [fst snd]. exact Hq.
Qed.

(** * The whole of a run, call by call and line by line *)

(** What the handler of [run] prints for an exception that reaches the
    [try] statement: the notice for an instance of [Exception], nothing
    for any other exception, which it does not catch. *)
Definition handler_lines (e : PyException) : list string :=
  if is_exception e then [("Error in workflow: " ++ exc_message e)%string] else [].

Section Scripted.

Variable self : DocumentWorkflowAgent.
Variable P : GenerationPort.
Variables topic requirements criteria : string.

(** The outline and the verdict of attempt [i]. *)
Variable o : nat -> list OutlineSection.
Variable v : nat -> OutlineCriteria.

(** The variables [outline] and [validation] of [run] when attempt [i]
    starts. *)
Definition outline_before (i : nat) : option (list OutlineSection) :=
  match i with 0 => None | S j => Some (o j) end.

Definition validation_before (i : nat) : option OutlineCriteria :=
  match i with 0 => None | S j => Some (v j) end.

(** The two calls of attempt [i]. *)
Definition attempt_calls (i : nat) : list Call :=
  [CreateOutline topic requirements (feedback_of (validation_before i));
   ValidateOutline (o i) criteria].

(** The four lines attempt [i] prints up to its verdict. *)
Definition attempt_lines (i : nat) : list string :=
  [notice_attempt (Z.of_nat i); notice_outline (Z.of_nat i) (o i);
   "Validating outline..."; notice_validation (v i)].

(** Calls and lines of the attempts [0..n-1]. *)
Definition world_after (n : nat) : World :=
  mkWorld (flat_map attempt_calls (seq 0 n)) (flat_map attempt_lines (seq 0 n)).

(** The port answers the attempts below [n] with [o] and [v], and every
    one of these verdicts rejects. *)
Definition rejects_below (n : nat) : Prop :=
  forall i, i < n ->
    outline_reply P (2 * i) = Returns (o i) /\
    criteria_reply P (2 * i + 1) = Returns (v i) /\
    meets_requirements (v i) = false.

Lemma flat_map_seq_S {A} (f : nat -> list A) (n : nat) :
  flat_map f (seq 0 (S n)) = (flat_map f (seq 0 n) ++ f n)%list.
Proof.
  rewrite seq_S, flat_map_app. cbn [flat_map Nat.add]. now rewrite app_nil_r.
Qed.

Lemma world_after_S (n : nat) :
  world_after (S n)
  = mkWorld (calls (world_after n) ++ attempt_calls n)%list
            (stdout (world_after n) ++ attempt_lines n)%list.
Proof.
  unfold world_after. cbn [calls stdout]. now rewrite !flat_map_seq_S.
Qed.

Lemma world_after_calls (n : nat) : length (calls (world_after n)) = 2 * n.
Proof.
  induction n as [|n IH]; [reflexivity|].
  rewrite world_after_S. cbn [calls]. rewrite length_app, IH. cbn [attempt_calls length]. lia.
Qed.

(** After [n] rejected attempts the loop stands at attempt [n], with
    the calls and the lines of these attempts behind it. *)
Lemma while_loop_unroll (n : nat) :
  forall fuel,
    rejects_below n ->
    (Z.of_nat n < max_retries self)%Z ->
    n <= fuel ->
    while_loop fuel self P topic requirements criteria 0%Z None None fresh
    = while_loop (fuel - n) self P topic requirements criteria
                 (Z.of_nat n) (outline_before n) (validation_before n) (world_after n).
Proof.
  induction n as [|n IH]; intros fuel Hrej Hmax Hfuel.
  - now rewrite Nat.sub_0_r.
  - rewrite IH by (try lia; intros i Hi; apply Hrej; lia).
    replace (fuel - n) with (S (fuel - S n)) by lia.
    rewrite while_loop_step.
    destruct (Z.ltb_spec (Z.of_nat n) (max_retries self)) as [_|]; [|lia].
    destruct (Hrej n) as (Ho & Hv & Hm); [lia|].
    rewrite world_after_calls.
    replace (S (2 * n)) with (2 * n + 1) by lia.
    rewrite Ho, Hv. cbv zeta. rewrite Hm.
    destruct (Z.eqb_spec (Z.of_nat n + 1) (max_retries self)) as [|_]; [lia|].
    rewrite world_after_S.
    replace (Z.of_nat n + 1)%Z with (Z.of_nat (S n)) by lia.
    reflexivity.
Qed.

(** The accepting run, in full. Under the conditions of C1, [run]
    returns the document's content, has made the two calls of each of
    the attempts [0..k] and then the document call, and has printed the
    four lines of each attempt, the acceptance line and the generation
    line, nothing else. *)
Theorem accepted_run_in_full (k : nat) (d : DocumentContent) :
  (Z.of_nat k < max_retries self)%Z ->
  rejects_below k ->
  outline_reply P (2 * k) = Returns (o k) ->
  criteria_reply P (2 * k + 1) = Returns (v k) ->
  meets_requirements (v k) = true ->
  document_reply P (2 * k + 2) = Returns d ->
  execution self P topic requirements criteria
  = (Ok (content d),
     mkWorld
       (flat_map attempt_calls (seq 0 (S k))
        ++ [GenerateDocument (Some (o k)) (Some (v k))])%list
       (flat_map attempt_lines (seq 0 (S k))
        ++ [notice_accepted; notice_generating])%list).
Proof.
  intros Hk Hrej Ho Hv Hm Hd.
  unfold execution, run, try_except, bind.
  rewrite (while_loop_unroll k) by (auto; lia).
  replace (Z.to_nat (max_retries self) - k) with (S (Z.to_nat (max_retries self) - S k))
    by lia.
  rewrite while_loop_step.
  destruct (Z.ltb_spec (Z.of_nat k) (max_retries self)) as [_|]; [|lia].
  rewrite world_after_calls.
  replace (S (2 * k)) with (2 * k + 1) by lia.
  rewrite Ho, Hv. cbv zeta. rewrite Hm.
  unfold print, generate_document, generation, ret. cbn [calls stdout].
  rewrite length_app, world_after_calls. cbn [length].
  rewrite Hd. rewrite !flat_map_seq_S.
  unfold world_after, attempt_calls, attempt_lines, draft_call, check_call.
  cbn [calls stdout fst snd]. rewrite <- !app_assoc. reflexivity.
Qed.

(** The run that uses up its budget, in full. With [max_retries >= 1]
    and every one of the [max_retries] attempts rejected, [run] returns
    the failure text made from the last verdict, has made the two calls
    of each attempt and no other, and has printed the four lines of
    each attempt and then the line that tells how many attempts
    failed. *)
Theorem exhausted_run_in_full :
  (1 <= max_retries self)%Z ->
  rejects_below (Z.to_nat (max_retries self)) ->
  let n := Z.to_nat (max_retries self) in
  execution self P topic requirements criteria
  = (Ok ("Failed to create satisfactory outline. Last validation: "
         ++ str_criteria (v (n - 1))),
     mkWorld
       (flat_map attempt_calls (seq 0 n))
       (flat_map attempt_lines (seq 0 n)
        ++ [(nl ++ "Failed to create satisfactory outline after "
             ++ str_int (max_retries self) ++ " attempts")%string])%list).
Proof.
  intros Hmax Hrej n. subst n.
  remember (Z.to_nat (max_retries self)) as n eqn:Hn.
  destruct n as [|m]; [lia|].
  unfold execution, run, try_except, bind.
  rewrite <- Hn.
  rewrite (while_loop_unroll m) by (try lia; intros i Hi; apply Hrej; lia).
  replace (S m - m) with 1 by lia.
  rewrite while_loop_step.
  destruct (Z.ltb_spec (Z.of_nat m) (max_retries self)) as [_|]; [|lia].
  destruct (Hrej m) as (Ho & Hv & Hm); [lia|].
  rewrite world_after_calls.
  replace (S (2 * m)) with (2 * m + 1) by lia.
  rewrite Ho, Hv. cbv zeta. rewrite Hm.
  destruct (Z.eqb_spec (Z.of_nat m + 1) (max_retries self)) as [_|]; [|lia].
  unfold ret. rewrite !flat_map_seq_S.
  replace (S m - 1) with m by lia.
  unfold world_after, attempt_calls, attempt_lines, draft_call, check_call,
    failure_text, notice_exhausted.
  cbn [calls stdout fst snd]. rewrite <- !app_assoc. reflexivity.
Qed.

(** A draft call that raises, in full. After [k] rejected attempts,
    with budget left, the port answers the draft call of attempt [k]
    with [e]: [run] raises [e], the draft call is its last call, and
    after the lines of the attempts before it has printed the attempt
    line and then what the handler prints for [e]: the error notice
    when [e] is an instance of [Exception], nothing otherwise. *)
Theorem draft_failure_in_full (k : nat) (e : PyException) :
  (Z.of_nat k < max_retries self)%Z ->
  rejects_below k ->
  outline_reply P (2 * k) = Fails e ->
  execution self P topic requirements criteria
  = (Raise e,
     mkWorld
       (flat_map attempt_calls (seq 0 k)
        ++ [CreateOutline topic requirements (feedback_of (validation_before k))])%list
       (flat_map attempt_lines (seq 0 k)
        ++ [notice_attempt (Z.of_nat k)] ++ handler_lines e)%list).
Proof.
  intros Hk Hrej Ho.
  unfold execution, run, try_except, bind.
  rewrite (while_loop_unroll k) by (auto; lia).
  replace (Z.to_nat (max_retries self) - k) with (S (Z.to_nat (max_retries self) - S k))
    by lia.
  rewrite while_loop_step.
  destruct (Z.ltb_spec (Z.of_nat k) (max_retries self)) as [_|]; [|lia].
  rewrite world_after_calls, Ho.
  unfold print, raise, world_after, draft_call, handler_lines.
  destruct (is_exception e); cbn [calls stdout fst snd];
    rewrite <- ?app_assoc; cbn [app]; rewrite ?app_nil_r; reflexivity.
Qed.

(** A validation call that raises, in full. As before, but the draft
    call of attempt [k] returns and its validation call is answered
    with [e]: the outline line and the line "Validating outline..."
    are printed before what the handler prints for [e]. *)
Theorem validation_failure_in_full (k : nat) (e : PyException) :
  (Z.of_nat k < max_retries self)%Z ->
  rejects_below k ->
  outline_reply P (2 * k) = Returns (o k) ->
  criteria_reply P (2 * k + 1) = Fails e ->
  execution self P topic requirements criteria
  = (Raise e,
     mkWorld
       (flat_map attempt_calls (seq 0 (S k)))
       (flat_map attempt_lines (seq 0 k)
        ++ [notice_attempt (Z.of_nat k); notice_outline (Z.of_nat k) (o k);
            "Validating outline..."] ++ handler_lines e)%list).
Proof.
  intros Hk Hrej Ho Hv.
  unfold execution, run, try_except, bind.
  rewrite (while_loop_unroll k) by (auto; lia).
  replace (Z.to_nat (max_retries self) - k) with (S (Z.to_nat (max_retries self) - S k))
    by lia.
  rewrite while_loop_step.
  destruct (Z.ltb_spec (Z.of_nat k) (max_retries self)) as [_|]; [|lia].
  rewrite world_after_calls.
  replace (S (2 * k)) with (2 * k + 1) by lia.
  rewrite Ho, Hv. rewrite flat_map_seq_S.
  unfold print, raise, world_after, attempt_calls, draft_call, check_call, handler_lines.
  destruct (is_exception e); cbn [calls stdout fst snd];
    rewrite <- ?app_assoc; cbn [app]; rewrite ?app_nil_r; reflexivity.
Qed.

(** A document call that raises, in full. The outline of attempt [k]
    is accepted and the port answers the document call with [e]: [run]
    raises [e] and returns no text; the acceptance line and the
    generation line are printed before what the handler prints for
    [e]. *)
Theorem document_failure_in_full (k : nat) (e : PyException) :
  (Z.of_nat k < max_retries self)%Z ->
  rejects_below k ->
  outline_reply P (2 * k) = Returns (o k) ->
  criteria_reply P (2 * k + 1) = Returns (v k) ->
  meets_requirements (v k) = true ->
  document_reply P (2 * k + 2) = Fails e ->
  execution self P topic requirements criteria
  = (Raise e,
     mkWorld
       (flat_map attempt_calls (seq 0 (S k))
        ++ [GenerateDocument (Some (o k)) (Some (v k))])%list
       (flat_map attempt_lines (seq 0 (S k))
        ++ [notice_accepted; notice_generating] ++ handler_lines e)%list).
Proof.
  intros Hk Hrej Ho Hv Hm Hd.
  unfold execution, run, try_except, bind.
  rewrite (while_loop_unroll k) by (auto; lia).
  replace (Z.to_nat (max_retries self) - k) with (S (Z.to_nat (max_retries self) - S k))
    by lia.
  rewrite while_loop_step.
  destruct (Z.ltb_spec (Z.of_nat k) (max_retries self)) as [_|]; [|lia].
  rewrite world_after_calls.
  replace (S (2 * k)) with (2 * k + 1) by lia.
  rewrite Ho, Hv. cbv zeta. rewrite Hm.
  unfold print, generate_document, generation, ret, raise. cbn [calls stdout].
  rewrite length_app, world_after_calls. cbn [length].
  rewrite Hd. rewrite !flat_map_seq_S.
  unfold world_after, attempt_calls, attempt_lines, draft_call, check_call, handler_lines.
  destruct (is_exception e); cbn [calls stdout fst snd];
    rewrite <- ?app_assoc; cbn [app]; rewrite ?app_nil_r; reflexivity.
Qed.

End Scripted.

(** An accepted run does not depend on how much budget is left over:
    two agents whose budgets both exceed the accepting attempt run
    alike, call for call and line for line. *)
Theorem spare_budget_changes_nothing
    (self1 self2 : DocumentWorkflowAgent) (P : GenerationPort)
    (topic requirements criteria : string)
    (o : nat -> list OutlineSection) (v : nat -> OutlineCriteria)
    (k : nat) (d : DocumentContent) :
  (Z.of_nat k < max_retries self1)%Z ->
  (Z.of_nat k < max_retries self2)%Z ->
  rejects_below P o v k ->
  outline_reply P (2 * k) = Returns (o k) ->
  criteria_reply P (2 * k + 1) = Returns (v k) ->
  meets_requirements (v k) = true ->
  document_reply P (2 * k + 2) = Returns d ->
  execution self1 P topic requirements criteria
  = execution self2 P topic requirements criteria.
Proof.
  intros H1 H2 Hrej Ho Hv Hm Hd.
  unfold execution, run, try_except, bind.
  rewrite !(while_loop_unroll _ P topic requirements criteria o v k) by (auto; lia).
  replace (Z.to_nat (max_retries self1) - k)
    with (S (Z.to_nat (max_retries self1) - S k)) by lia.
  replace (Z.to_nat (max_retries self2) - k)
    with (S (Z.to_nat (max_retries self2) - S k)) by lia.
  rewrite !while_loop_step.
  destruct (Z.ltb_spec (Z.of_nat k) (max_retries self1)) as [_|]; [|lia].
  destruct (Z.ltb_spec (Z.of_nat k) (max_retries self2)) as [_|]; [|lia].
  rewrite world_after_calls.
  replace (S (2 * k)) with (2 * k + 1) by lia.
  rewrite Ho, Hv. cbv zeta. rewrite Hm. reflexivity.
Qed.

(** * The prompt builders *)

(** [generate_document] writes the suggestion pieces one after the
    other with nothing between them: the instructions for the
    suggestions [a; b; ...] are those for the single suggestion
    [a- b] followed by the same rest. *)
Theorem suggestions_run_together
    (outline : option (list OutlineSection)) (v1 v2 : OutlineCriteria)
    (a b : string) (rest : list string) :
  suggestions v1 = a :: b :: rest ->
  suggestions v2 = (a ++ "- " ++ b) :: rest ->
  generate_document_prompt outline (Some v1) = generate_document_prompt outline (Some v2).
Proof.
  intros H1 H2. unfold generate_document_prompt. rewrite H1, H2.
  cbn [nonempty add_suggestions]. f_equal.
  now rewrite !append_assoc.
Qed.

(** In every run the instructions of a validation call hold the
    caller's criteria as they are and the rendering of the outline that
    the port returned to the draft call before it. *)
Theorem validation_instructions
    (self : DocumentWorkflowAgent) (P : GenerationPort)
    (topic requirements criteria : string) (idx : nat) (call : Call) :
  nth_error (trace self P topic requirements criteria) idx = Some call ->
  is_check call = true ->
  exists i o,
    idx = 2 * i + 1 /\
    outline_reply P (2 * i) = Returns o /\
    contains criteria (instructions call) /\
    contains (str_outline o) (instructions call).
Proof.
  intros Hn Hk. destruct call as [t r fb|o c|outline validation]; try discriminate.
  apply trace_justified in Hn. cbn [justified] in Hn.
  destruct Hn as (-> & i & fb & -> & _ & Ho).
  exists i, o. repeat split; auto; cbn [instructions]; unfold validate_outline_prompt.
  - do 3 apply contains_app_r. apply contains_here.
  - do 11 apply contains_app_r. apply contains_here.
Qed.

(** * The entry point *)

(** [DocumentWorkflowAgent()]: the fields at their defaults. *)
Definition default_agent : DocumentWorkflowAgent := mkAgent [] 3.

(** The three texts of [main]. *)
Definition main_topic : string :=
  "The Impact of Artificial Intelligence on Cybersecurity".

Definition main_requirements : string :=
  nl
  ++ spaces 8 ++ "- Must include at least 5-6 main sections" ++ nl
  ++ spaces 8 ++ "- Each section should have 5-6 key points" ++ nl
  ++ spaces 8 ++ "- Must cover both benefits and challenges" ++ nl
  ++ spaces 8 ++ "- Should include real-world examples" ++ nl
  ++ spaces 8
  ++ "- We are writing for an CISO audience so this must be technical and detailed."
  ++ nl
  ++ spaces 8.

Definition main_criteria : string :=
  nl
  ++ spaces 8 ++ "- All required sections present" ++ nl
  ++ spaces 8 ++ "- Balanced coverage of topics" ++ nl
  ++ spaces 8 ++ "- Logical flow between sections" ++ nl
  ++ spaces 8 ++ "- Sufficient detail in key points" ++ nl
  ++ spaces 8.

(** [main]: run the workflow of a default agent, print what it returns. *)
Definition main (P : GenerationPort) : M unit :=
  (result <- run default_agent P main_topic main_requirements main_criteria ;;
   print result)%wf.

Lemma main_after_run (P : GenerationPort) :
  main P fresh
  = match execution default_agent P main_topic main_requirements main_criteria with
    | (Ok text, w) => (Ok tt, mkWorld (calls w) (stdout w ++ [text])%list)
    | (Raise e, w) => (Raise e, w)
    | (Diverge, w) => (Diverge, w)
    end.
Proof.
  unfold main, execution, bind, print.
  destruct (run default_agent P main_topic main_requirements main_criteria fresh)
    as [[text|e|] w]; reflexivity.
Qed.

(** Whatever the port answers, [main] drafts at most three outlines,
    validates at most three, and asks for a document at most once and
    only right after a validation call that the port answered with an
    accepting verdict. When the workflow returns a text, [main] ends
    normally and that text is the last line printed; when the workflow
    raises, [main] raises the same exception and prints no result: the
    last line printed is the error notice when the exception is an
    instance of [Exception], and no error notice is printed when it is
    not. *)
Theorem main_behaviour (P : GenerationPort) :
  let made := calls (snd (main P fresh)) in
  let lines := stdout (snd (main P fresh)) in
  count is_draft made <= 3 /\
  count is_check made <= 3 /\
  count is_generate made <= 1 /\
  length made <= 7 /\
  (forall idx outline validation,
      nth_error made idx = Some (GenerateDocument outline validation) ->
      exists i o v,
        idx = 2 * i + 2 /\
        nth_error made (2 * i + 1) = Some (ValidateOutline o main_criteria) /\
        criteria_reply P (2 * i + 1) = Returns v /\
        meets_requirements v = true /\
        outline = Some o /\ validation = Some v) /\
  match fst (main P fresh) with
  | Ok _ =>
      exists text,
        result default_agent P main_topic main_requirements main_criteria = Ok text /\
        last lines "" = text
  | Raise e =>
      result default_agent P main_topic main_requirements main_criteria = Raise e /\
      (is_exception e = true ->
       last lines "" = "Error in workflow: " ++ exc_message e) /\
      (is_exception e = false -> filter is_error_notice lines = [])
  | Diverge => False
  end.
Proof.
  intros made lines. subst made lines.
  pose proof (run_spec_budget default_agent P main_topic main_requirements main_criteria
                _ _ (run_sound default_agent P main_topic main_requirements main_criteria))
    as (Bd & Bc & _ & Bg & Bl).
  pose proof (trace_justified default_agent P main_topic main_requirements main_criteria)
    as Hj.
  pose proof (raise_is_announced default_agent P main_topic main_requirements main_criteria)
    as Hr.
  pose proof (run_terminates default_agent P main_topic main_requirements main_criteria)
    as Ht.
  pose proof (raise_unannounced default_agent P main_topic main_requirements main_criteria)
    as Hu.
  rewrite main_after_run.
  unfold result, trace, printed in *.
  destruct (execution default_agent P main_topic main_requirements main_criteria)
    as [[text|e|] w]; cbn [fst snd calls stdout] in *.
  all: change (Z.to_nat (max_retries default_agent)) with 3 in *.
  all: repeat split; try lia.
  all: try (intros idx outline validation Hn;
            apply Hj in Hn; cbn [justified] in Hn;
            destruct Hn as [_ [(_ & _ & _ & Hle)|(i & o & v & Hi & Hc & _ & Hv & Hm & Ho & Hval)]];
            [cbn in Hle; lia | now exists i, o, v]).
  - exists text. split; [reflexivity | apply last_last].
  - intros Hexc. destruct (Hr e eq_refl Hexc) as [out ->]. apply last_last.
  - intros Hexc. now apply (Hu e).
  - now apply Ht.
Qed.

(** * The further properties on the example scenarios *)

Module Scenario2.

(** Attempt 0 is rejected; the draft call of attempt 1 raises. *)
Definition draft_failing : GenerationPort :=
  mkPort (scripted [Returns O0])
         (scripted [Fails boom; Returns V0])
         (scripted []).

(** As [accepting], but the document call raises. *)
Definition document_failing : GenerationPort :=
  mkPort (outline_reply accepting) (criteria_reply accepting) (scripted []).

Definition outlines (i : nat) : list OutlineSection := nth i [O0; O1] [].
Definition verdicts (i : nat) : OutlineCriteria := nth i [V0; V1] V0.

Definition two_suggestions : OutlineCriteria := mkOutlineCriteria true [] ["a"; "b"].
Definition one_suggestion : OutlineCriteria := mkOutlineCriteria true ["gap"] ["a- b"].

End Scenario2.

Import Scenario2.

Lemma run_raises_only_port_exceptions_witness :
  exists idx call,
    S idx = length (trace (agent 3) failing topic requirements criteria) /\
    nth_error (trace (agent 3) failing topic requirements criteria) idx = Some call /\
    answer_fails failing idx call boom.
Proof.
  apply (run_raises_only_port_exceptions (agent 3) failing topic requirements criteria boom).
  reflexivity.
Defined.

Lemma run_returns_document_or_failure_witness :
  (exists idx outline validation d,
      S idx = length (trace (agent 2) rejecting topic requirements criteria) /\
      nth_error (trace (agent 2) rejecting topic requirements criteria) idx
      = Some (GenerateDocument outline validation) /\
      document_reply rejecting idx = Returns d /\
      "Failed to create satisfactory outline. Last validation: " ++ str_criteria V0
      = content d) \/
  (exists idx o v,
      S idx = length (trace (agent 2) rejecting topic requirements criteria) /\
      nth_error (trace (agent 2) rejecting topic requirements criteria) idx
      = Some (ValidateOutline o criteria) /\
      criteria_reply rejecting idx = Returns v /\
      meets_requirements v = false /\
      Z.of_nat (length (trace (agent 2) rejecting topic requirements criteria))
      = (2 * max_retries (agent 2))%Z /\
      "Failed to create satisfactory outline. Last validation: " ++ str_criteria V0
      = "Failed to create satisfactory outline. Last validation: " ++ str_criteria v).
Proof.
  apply (run_returns_document_or_failure (agent 2) rejecting topic requirements criteria).
  reflexivity.
Defined.

Lemma calls_carry_the_arguments_witness :
  topic = topic /\ requirements = requirements /\ Nat.even 2 = true.
Proof.
  exact (calls_carry_the_arguments (agent 2) accepting topic requirements criteria
           2 (CreateOutline topic requirements (feedback_of (Some V0))) eq_refl).
Defined.

Lemma accepting_rejects_below_1 : rejects_below accepting outlines verdicts 1.
Proof.
  intros [|i] Hi; [repeat split; reflexivity | lia].
Defined.

Lemma accepted_run_in_full_witness :
  execution (agent 2) accepting topic requirements criteria
  = (Ok (content D),
     mkWorld
       (flat_map (attempt_calls topic requirements criteria outlines verdicts) (seq 0 2)
        ++ [GenerateDocument (Some O1) (Some V1)])%list
       (flat_map (attempt_lines outlines verdicts) (seq 0 2)
        ++ [notice_accepted; notice_generating])%list).
Proof.
  apply (accepted_run_in_full (agent 2) accepting topic requirements criteria
           outlines verdicts 1 D);
    try reflexivity.
  exact accepting_rejects_below_1.
Defined.

Lemma exhausted_run_in_full_witness :
  execution (agent 2) rejecting topic requirements criteria
  = (Ok ("Failed to create satisfactory outline. Last validation: " ++ str_criteria V0),
     mkWorld
       (flat_map (attempt_calls topic requirements criteria (fun _ => O0) (fun _ => V0))
                 (seq 0 2))
       (flat_map (attempt_lines (fun _ => O0) (fun _ => V0)) (seq 0 2)
        ++ [(nl ++ "Failed to create satisfactory outline after "
             ++ str_int 2 ++ " attempts")%string])%list).
Proof.
  apply (exhausted_run_in_full (agent 2) rejecting topic requirements criteria
           (fun _ => O0) (fun _ => V0)).
  - cbn. lia.
  - intros i Hi. repeat split; reflexivity.
Defined.

Lemma draft_failure_in_full_witness :
  execution (agent 2) draft_failing topic requirements criteria
  = (Raise timeout,
     mkWorld
       (flat_map (attempt_calls topic requirements criteria outlines verdicts) (seq 0 1)
        ++ [CreateOutline topic requirements (feedback_of (Some V0))])%list
       (flat_map (attempt_lines outlines verdicts) (seq 0 1)
        ++ [notice_attempt 1;
            ("Error in workflow: " ++ exc_message timeout)%string])%list).
Proof.
  apply (draft_failure_in_full (agent 2) draft_failing topic requirements criteria
           outlines verdicts 1 timeout).
  - reflexivity.
  - intros [|i] Hi; [repeat split; reflexivity | lia].
  - reflexivity.
Defined.

Lemma validation_failure_in_full_witness :
  execution (agent 3) failing topic requirements criteria
  = (Raise boom,
     mkWorld
       (flat_map (attempt_calls topic requirements criteria outlines verdicts) (seq 0 2))
       (flat_map (attempt_lines outlines verdicts) (seq 0 1)
        ++ [notice_attempt 1; notice_outline 1 O1; "Validating outline...";
            ("Error in workflow: " ++ exc_message boom)%string])%list).
Proof.
  apply (validation_failure_in_full (agent 3) failing topic requirements criteria
           outlines verdicts 1 boom).
  - reflexivity.
  - intros [|i] Hi; [repeat split; reflexivity | lia].
  - reflexivity.
  - reflexivity.
Defined.

Lemma document_failure_in_full_witness :
  execution (agent 2) document_failing topic requirements criteria
  = (Raise timeout,
     mkWorld
       (flat_map (attempt_calls topic requirements criteria outlines verdicts) (seq 0 2)
        ++ [GenerateDocument (Some O1) (Some V1)])%list
       (flat_map (attempt_lines outlines verdicts) (seq 0 2)
        ++ [notice_accepted; notice_generating;
            ("Error in workflow: " ++ exc_message timeout)%string])%list).
Proof.
  apply (document_failure_in_full (agent 2) document_failing topic requirements criteria
           outlines verdicts 1 timeout).
  - reflexivity.
  - intros [|i] Hi; [repeat split; reflexivity | lia].
  - reflexivity.
  - reflexivity.
  - reflexivity.
  - reflexivity.
Defined.

Lemma spare_budget_changes_nothing_witness :
  execution (agent 2) accepting topic requirements criteria
  = execution (agent 5) accepting topic requirements criteria.
Proof.
  apply (spare_budget_changes_nothing (agent 2) (agent 5) accepting
           topic requirements criteria outlines verdicts 1 D);
    try reflexivity.
  intros [|i] Hi; [repeat split; reflexivity | lia].
Defined.

Lemma suggestions_run_together_witness :
  generate_document_prompt (Some O1) (Some two_suggestions)
  = generate_document_prompt (Some O1) (Some one_suggestion).
Proof.
  apply (suggestions_run_together (Some O1) two_suggestions one_suggestion "a" "b" []);
    reflexivity.
Defined.

Lemma validation_instructions_witness :
  exists i o,
    3 = 2 * i + 1 /\
    outline_reply accepting (2 * i) = Returns o /\
    contains criteria (instructions (ValidateOutline O1 criteria)) /\
    contains (str_outline o) (instructions (ValidateOutline O1 criteria)).
Proof.
  apply (validation_instructions (agent 2) accepting topic requirements criteria
           3 (ValidateOutline O1 criteria)); reflexivity.
Defined.

Lemma main_behaviour_witness :
  exists i o v,
    4 = 2 * i + 2 /\
    nth_error (calls (snd (main accepting fresh))) (2 * i + 1)
    = Some (ValidateOutline o main_criteria) /\
    criteria_reply accepting (2 * i + 1) = Returns v /\
    meets_requirements v = true /\
    Some O1 = Some o /\ Some V1 = Some v.
Proof.
  destruct (main_behaviour accepting) as (_ & _ & _ & _ & Hgen & _).
  exact (Hgen 4 (Some O1) (Some V1) eq_refl).
Defined.

(** A budget of zero or less, in full. The loop condition fails at
    once, whatever the budget below one: [run] prints the generation
    line and makes the document call with [None] for the outline and
    [None] for the verdict, its only call; it returns the content of
    the document, or raises what the port raised, after what the
    handler prints for it (the error notice for an instance of
    [Exception], nothing otherwise). *)
Theorem nonpositive_budget_in_full
    (self : DocumentWorkflowAgent) (P : GenerationPort)
    (topic requirements criteria : string) :
  (max_retries self <= 0)%Z ->
  execution self P topic requirements criteria
  = match document_reply P 0 with
    | Returns d =>
        (Ok (content d),
         mkWorld [GenerateDocument None None] [notice_generating])
    | Fails e =>
        (Raise e,
         mkWorld [GenerateDocument None None]
                 ([notice_generating] ++ handler_lines e)%list)
    end.
Proof.
  intros Hmax.
  assert (Hloop : forall fuel,
             while_loop fuel self P topic requirements criteria 0%Z None None fresh
             = (Ok (Leaves None None), fresh)).
  { intros [|fuel]; cbn [while_loop];
      destruct (Z.ltb_spec 0 (max_retries self)); try lia; reflexivity. }
  unfold execution, run, try_except, bind. rewrite Hloop.
  unfold print, generate_document, generation, ret, raise.
  cbn [fresh calls stdout length app].
  destruct (document_reply P 0) as [d|e]; [reflexivity|].
  unfold handler_lines. destruct (is_exception e); reflexivity.
Qed.

Lemma nonpositive_budget_in_full_witness :
  execution (agent (-2)) rejecting topic requirements criteria
  = (Ok (content D), mkWorld [GenerateDocument None None] [notice_generating]).
Proof.
  apply (nonpositive_budget_in_full (agent (-2)) rejecting topic requirements criteria).
  cbn. lia.
Defined.
